(** * Smart recipe generator: ingredient knowledge model and history analytics

    A shallow embedding of [src/main.py]: the catalog tables, the
    [RecipeManager] class, [analyze_nutrition] and the "Popular
    Combinations" analysis of [main], followed by the properties the
    specification states about them.

    Modelling conventions.
    - A Python [str] is a [string]; a character of the model is one [ascii]
      (every ingredient name of the catalog is ASCII).  [len] is
      [String.length] and [<] on strings is [String.ltb], both character by
      character as in Python.
    - A Python [int] is a [Z].
    - A dict literal whose iteration order is observed is an association
      list in insertion order; a dict only looked up by key is a [gmap].
    - A Python [set] of strings is represented by the sequence of elements
      inserted so far; [list(s)] enumerates it in the interpreter's order,
      which the source does not control: it is the section variable
      [set_iter], constrained only to list the members of the set.
    - [json.dump] / [json.load] belong to the standard library of Python and
      are section variables, with the round trip of the library as the only
      assumption made where it is needed.  [json.load] returns any JSON value
      ([json]); the histories of the model are lists of [entry], the shape
      [add_recipe] builds, and a computation that binds [self.history] to a
      JSON value of another shape ends with the outcome [Untyped], beyond
      which the model does not follow it.
    - Everything the program can read or write (module globals, the session
      state, the manager's history, the working directory, the clock) is a
      field of [world]; stateful code is written in the monad [Py] of
      computations that may raise. *)

From Stdlib Require Import ZArith Ascii String List Sorted Permutation Lia.
From stdpp Require Import base option list gmap sets strings sorting.

Local Open Scope string_scope.
Local Open Scope list_scope.
Local Open Scope Z_scope.

(** ** Python values *)

(** [len(s)] for a string and for a list. *)
Definition str_len (s : string) : Z := Z.of_nat (String.length s).
Definition list_len {A} (l : list A) : Z := Z.of_nat (List.length l).

(** [sum(l)] for a list of integers. *)
Definition py_sum (l : list Z) : Z := foldl Z.add 0 l.

(** [a < b] on strings: lexicographic on the characters' codes. *)
Definition str_lt (a b : string) : bool := String.ltb a b.

(** The values [json.load] can return (numbers restricted to integers, the
    only ones the program writes). *)
#[local] Unset Elimination Schemes.
Inductive json : Type :=
  | JNull
  | JBool (b : bool)
  | JNumber (z : Z)
  | JString (s : string)
  | JArray (l : list json)
  | JObject (kv : list (string * json)).
#[local] Set Elimination Schemes.

(** The exceptions the modelled code can raise. *)
Inductive exn : Type :=
  | KeyError (key : string)
  | IndexError
  | JSONDecodeError.

(** How a computation ends: it returns, it raises, or it goes on with
    [self.history] bound to [v], a JSON value that is not a list of entries;
    no exception is raised in the last case, but the model, whose histories
    are lists of entries, stops following the run there. *)
Inductive outcome (A : Type) : Type :=
  | Return (a : A)
  | Raise (e : exn)
  | Untyped (v : json).
Arguments Return {A} a.
Arguments Raise {A} e.
Arguments Untyped {A} v.

(** A dict literal in insertion order. *)
Definition pydict (V : Type) : Type := list (string * V).

(** [d.values()] *)
Definition values {V} (d : pydict V) : list V := map snd d.

(** [d[k]], raising [KeyError] when the key is absent. *)
Fixpoint getitem {V} (d : pydict V) (k : string) : outcome V :=
  match d with
  | [] => Raise (KeyError k)
  | (k', v) :: d' => if String.eqb k' k then Return v else getitem d' k
  end.

(** A [set] under construction: the elements inserted so far, oldest
    first. *)
Definition pyset : Type := list string.

(** [set()] *)
Definition set_new : pyset := [].

(** [s.update(xs)] *)
Definition set_update (s : pyset) (xs : list string) : pyset := s ++ xs.

(** The members of a set, as a mathematical set. *)
Definition members (s : pyset) : gset string := list_to_set s.

(** A stable descending sort on the count, as
    [sorted(d.items(), key=lambda x: x[1], reverse=True)]: items with equal
    counts keep the order they had in the input. *)
Fixpoint insert_desc {K} (x : K * Z) (l : list (K * Z)) : list (K * Z) :=
  match l with
  | [] => [x]
  | y :: l' => if snd x <? snd y then y :: insert_desc x l' else x :: l
  end.

Definition sorted_desc {K} (l : list (K * Z)) : list (K * Z) :=
  foldr insert_desc [] l.

(** ** The catalog *)

(** A value of [INGREDIENT_CATEGORIES]. *)
Record category : Type := Category {
  items : list string;
  tags : list string
}.

(** A value of [INGREDIENT_PROFILES]. *)
Record profile : Type := Profile {
  pairs_with : list string;
  flavor_profile : list string;
  cooking_methods : list string
}.

(** The literal bound to [INGREDIENT_CATEGORIES] at module load. *)
Definition INGREDIENT_CATEGORIES_literal : pydict category :=
  [ ("Vegetables",
     Category ["Tomato"; "Onion"; "Garlic"; "Spinach"; "Potato"; "Carrot";
               "Bell Pepper"; "Mushroom"]
              ["vegan"; "vegetarian"; "healthy"]);
    ("Proteins",
     Category ["Eggs"; "Chicken"; "Tofu"; "Beef"; "Fish"; "Lentils"]
              ["high-protein"]);
    ("Dairy",
     Category ["Milk"; "Cheese"; "Yogurt"; "Butter"]
              ["vegetarian"]);
    ("Pantry",
     Category ["Rice"; "Pasta"; "Flour"; "Oil"; "Salt"; "Pepper"]
              ["staples"]);
    ("Herbs",
     Category ["Basil"; "Oregano"; "Thyme"; "Cilantro"; "Parsley"]
              ["flavor-enhancer"]) ].

(** The literal bound to [INGREDIENT_PROFILES] at module load. *)
Definition INGREDIENT_PROFILES_literal : gmap string profile :=
  <["Tomato" := Profile ["Basil"; "Garlic"; "Onion"; "Cheese"]
                        ["acidic"; "sweet"]
                        ["raw"; "roasted"; "sautéed"]]>
  (<["Chicken" := Profile ["Garlic"; "Onion"; "Bell Pepper"; "Thyme"]
                          ["savory"]
                          ["grilled"; "baked"; "pan-fried"]]> ∅).

(** ** History entries *)

(** The dict built by [add_recipe]. *)
Record entry : Type := Entry {
  recipe : string;
  timestamp : string;
  ingredients : list string;
  likes : Z;
  dietary_tags : list string
}.

(** The dict returned by [analyze_nutrition]. *)
Record nutrition : Type := Nutrition {
  calories : Z;
  protein : Z;
  carbs : Z
}.

(** *** Entries as JSON values *)

(** The JSON value of the dict of [add_recipe] (lines 70-76), keys in the
    order of the literal, and of a history. *)
Definition entry_to_json (e : entry) : json :=
  JObject [ ("recipe", JString (recipe e));
            ("timestamp", JString (timestamp e));
            ("ingredients", JArray (JString <$> ingredients e));
            ("likes", JNumber (likes e));
            ("dietary_tags", JArray (JString <$> dietary_tags e)) ].

Definition to_json (h : list entry) : json := JArray (entry_to_json <$> h).

(** Reading a JSON value as a list of strings, as an entry, as a history:
    [None] when it has another shape. *)
Definition as_string (v : json) : option string :=
  match v with
  | JString s => Some s
  | _ => None
  end.

Definition as_strings (v : json) : option (list string) :=
  match v with
  | JArray l => mapM as_string l
  | _ => None
  end.

Definition as_entry (v : json) : option entry :=
  match v with
  | JObject [ (k1, JString r); (k2, JString t); (k3, i); (k4, JNumber n); (k5, d) ] =>
      if String.eqb k1 "recipe" && String.eqb k2 "timestamp"
         && String.eqb k3 "ingredients" && String.eqb k4 "likes"
         && String.eqb k5 "dietary_tags"
      then
        sel ← as_strings i;
        tgs ← as_strings d;
        Some (Entry r t sel n tgs)
      else None
  | _ => None
  end.

Definition as_history (v : json) : option (list entry) :=
  match v with
  | JArray l => mapM as_entry l
  | _ => None
  end.

(** ** The "Popular Combinations" analysis of [main] (lines 246-254) *)

(** [combinations[key] += 1] on a [defaultdict(int)]: a present key keeps
    its place, an absent one is appended with the default [0] plus one. *)
Fixpoint incr (combinations : list (string * string * Z)) (key : string * string)
    : list (string * string * Z) :=
  match combinations with
  | [] => [(key, 0 + 1)]
  | (k, c) :: rest =>
      if decide (k = key) then (k, c + 1) :: rest else (k, c) :: incr rest key
  end.

(** The three nested loops filling [combinations]. *)
Definition count_combinations (history : list entry) : list (string * string * Z) :=
  foldl (fun combinations entry =>
    foldl (fun combinations i1 =>
      foldl (fun combinations i2 =>
        if str_lt i1 i2 then incr combinations (i1, i2) else combinations)
        combinations (ingredients entry))
      combinations (ingredients entry))
    [] history.

(** [top_combos], with the length of the slice as a parameter; the body is
    guarded by [if recipe_manager.history:]. *)
Definition top_combos (history : list entry) (k : nat) : list (string * string * Z) :=
  match history with
  | [] => []
  | _ => take k (sorted_desc (count_combinations history))
  end.

(** The slice the source takes: [[:3]]. *)
Definition main_top_combos (history : list entry) : list (string * string * Z) :=
  top_combos history 3.

(** ** Reference notions used to state the properties *)

(** The pairs met by the loops, in the order they are met: entries in
    history order, then [i1], then [i2]. *)
Definition entry_pairs (sel : list string) : list (string * string) :=
  i1 ← sel; i2 ← sel; if str_lt i1 i2 then [(i1, i2)] else [].

Definition pair_stream (history : list entry) : list (string * string) :=
  e ← history; entry_pairs (ingredients e).

(** Position of the first occurrence of [p] in [s] ([length s] if none). *)
Fixpoint first_index {A} `{EqDecision A} (p : A) (s : list A) : nat :=
  match s with
  | [] => 0
  | q :: s' => if decide (p = q) then 0%nat else S (first_index p s')
  end.

(** The distinct elements of [s], in the order of their first occurrence. *)
Fixpoint first_occurrences {A} `{EqDecision A} (s : list A) : list A :=
  match s with
  | [] => []
  | x :: s' => x :: filter (fun y => y ≠ x) (first_occurrences s')
  end.

(** Number of occurrences of [x] in [l]. *)
Fixpoint occurrences {A} `{EqDecision A} (x : A) (l : list A) : Z :=
  match l with
  | [] => 0
  | y :: l' => (if decide (x = y) then 1 else 0) + occurrences x l'
  end.

(** The count stored under [key], [0] when the key is absent. *)
Fixpoint count_of (combinations : list (string * string * Z)) (key : string * string) : Z :=
  match combinations with
  | [] => 0
  | (k, c) :: rest => if decide (k = key) then c else count_of rest key
  end.

(** Number of entries whose selection holds both [a] and [b]. *)
Definition entries_with_both (a b : string) (history : list entry) : Z :=
  list_len (filter (fun e => a ∈ ingredients e ∧ b ∈ ingredients e) history).

(** Number of elements of [S] that belong to [xs]. *)
Fixpoint count_members (xs S : list string) : Z :=
  match S with
  | [] => 0
  | i :: S' => (if bool_decide (i ∈ xs) then 1 else 0) + count_members xs S'
  end.

(** Sum of [f] over the elements of a list. *)
Fixpoint sum_over {A} (f : A → Z) (l : list A) : Z :=
  match l with
  | [] => 0
  | x :: l' => f x + sum_over f l'
  end.

(** The order of the result of [top_combos]: a larger count first, and among
    equal counts the pair met first in [s]. *)
Definition ranks_before (s : list (string * string)) (x y : string * string * Z) : Prop :=
  snd y < snd x ∨ (snd x = snd y ∧ (first_index (fst x) s < first_index (fst y) s)%nat).

(** The union of the tag sets of all the categories of a catalog. *)
Definition catalog_tags (categories : pydict category) : gset string :=
  ⋃ ((fun c => list_to_set (tags c)) <$> values categories).

(** The cooking methods of [i]: those of its profile, none without one. *)
Definition methods_of (profiles : gmap string profile) (i : string) : gset string :=
  match profiles !! i with
  | Some p => list_to_set (cooking_methods p)
  | None => ∅
  end.

(** ** A concrete store format and set order *)

(** A stored document either encodes a history, or holds some other JSON
    value, or does not parse. *)
Inductive stored : Type :=
  | Encoded (h : list entry)
  | Holding (v : json)
  | Unparsable (text : string).

Definition stored_dumps (h : list entry) : stored := Encoded h.

Definition stored_loads (d : stored) : option json :=
  match d with
  | Encoded h => Some (to_json h)
  | Holding v => Some v
  | Unparsable _ => None
  end.

(** One admissible enumeration of a set: its members without repetition. *)
Definition distinct_members (s : pyset) : list string := remove_dups s.

(** ** The program state and the stateful code *)

Section Program.

(** What a stored file holds, and the two library calls on it:
    [json.dump] applied to a history, and [json.load]. *)
Context {document : Type}.
Variable json_dumps : list entry → document.
Variable json_loads : document → option json.

(** [list(s)] for a set [s]. *)
Variable set_iter : pyset → list string.

Record world : Type := World {
  INGREDIENT_CATEGORIES : pydict category;   (* module global *)
  INGREDIENT_PROFILES : gmap string profile; (* module global *)
  selected_ingredients : list string;        (* st.session_state.selected_ingredients *)
  history : list entry;                      (* recipe_manager.history *)
  files : gmap string document;              (* the working directory, os.listdir('.') *)
  now : string                               (* datetime.now().isoformat() *)
}.

Definition set_selected_ingredients (l : list string) (w : world) : world :=
  World (INGREDIENT_CATEGORIES w) (INGREDIENT_PROFILES w) l (history w)
        (files w) (now w).

Definition set_history (h : list entry) (w : world) : world :=
  World (INGREDIENT_CATEGORIES w) (INGREDIENT_PROFILES w)
        (selected_ingredients w) h (files w) (now w).

Definition set_files (fs : gmap string document) (w : world) : world :=
  World (INGREDIENT_CATEGORIES w) (INGREDIENT_PROFILES w)
        (selected_ingredients w) (history w) fs (now w).

(** Computations over the world that return or raise; a raise keeps the
    effects made before it. *)
Definition Py (A : Type) : Type := world → outcome A * world.

#[local] Instance Py_ret : MRet Py := fun A a w => (Return a, w).

#[local] Instance Py_bind : MBind Py := fun A B f m w =>
  match m w with
  | (Return a, w') => f a w'
  | (Raise e, w') => (Raise e, w')
  | (Untyped v, w') => (Untyped v, w')
  end.

Definition raise {A} (e : exn) : Py A := fun w => (Raise e, w).
Definition untyped {A} (v : json) : Py A := fun w => (Untyped v, w).
Definition gets {A} (f : world → A) : Py A := fun w => (Return (f w), w).
Definition modify (f : world → world) : Py unit := fun w => (Return tt, f w).
Definition lift {A} (o : outcome A) : Py A := fun w => (o, w).

(** [[x for x in l if p(x)]] where the test may raise. *)
Fixpoint filterM {A} (p : A → Py bool) (l : list A) : Py (list A) :=
  match l with
  | [] => mret []
  | x :: l' =>
      b ← p x;
      r ← filterM p l';
      mret (if b : bool then x :: r else r)
  end.

(** *** class RecipeManager *)

Definition history_file : string := "recipe_history.json".

(** Line 59 binds to [self.history] whatever [json.load] returns: a list of
    entries becomes the history; for any other JSON value no exception is
    raised and the computation ends with [Untyped]. *)
Definition load_history : Py unit :=
  fs ← gets files;
  match fs !! history_file with
  | Some f =>
      match json_loads f with
      | Some v =>
          match as_history v with
          | Some h => modify (set_history h)
          | None => untyped v
          end
      | None => raise JSONDecodeError
      end
  | None => modify (set_history [])
  end.

Definition save_history : Py unit :=
  h ← gets history;
  modify (fun w => set_files (<[history_file := json_dumps h]> (files w)) w).

Definition get_dietary_tags : Py (list string) :=
  selection ← gets selected_ingredients;
  categories ← gets INGREDIENT_CATEGORIES;
  let all_tags :=
    foldl (fun all_tags ingredient =>
      foldl (fun all_tags category =>
        if bool_decide (ingredient ∈ items category)
        then set_update all_tags (tags category)
        else all_tags)
        all_tags (values categories))
      set_new selection in
  mret (set_iter all_tags).

Definition get_cooking_methods : Py (list string) :=
  selection ← gets selected_ingredients;
  profiles ← gets INGREDIENT_PROFILES;
  let methods :=
    foldl (fun methods ingredient =>
      match profiles !! ingredient with
      | Some p => set_update methods (cooking_methods p)
      | None => methods
      end)
      set_new selection in
  mret (set_iter methods).

Definition add_recipe (recipe_data : string) : Py unit :=
  ts ← gets now;
  selection ← gets selected_ingredients;
  tgs ← get_dietary_tags;
  let recipe_entry := Entry recipe_data ts selection 0 tgs in
  modify (fun w => set_history (history w ++ [recipe_entry]) w);;
  save_history.

(** [RecipeManager()]: the constructor only calls [load_history]. *)
Definition RecipeManager : Py unit := load_history.

(** *** analyze_nutrition *)

Definition in_category (name : string) (i : string) : Py bool :=
  categories ← gets INGREDIENT_CATEGORIES;
  c ← lift (getitem categories name);
  mret (bool_decide (i ∈ items c)).

Definition analyze_nutrition (ingredients : list string) : Py nutrition :=
  let cal := py_sum (map (fun ingredient => str_len ingredient * 10) ingredients) in
  prot ← filterM (in_category "Proteins") ingredients;
  carb ← filterM (in_category "Pantry") ingredients;
  mret (Nutrition cal (list_len prot * 15) (list_len carb * 20)).

(** *** main: the sidebar selection (lines 174-176) and the Like button
    (lines 227-229) *)

Definition select_item (item : string) : Py unit :=
  selection ← gets selected_ingredients;
  if bool_decide (item ∈ selection) then mret tt
  else modify (set_selected_ingredients (selection ++ [item])).

(** [d['likes'] += 1] *)
Definition add_like (e : entry) : entry :=
  Entry (recipe e) (timestamp e) (ingredients e) (likes e + 1) (dietary_tags e).

Definition like_clicked : Py unit :=
  h ← gets history;
  match last h with
  | None => raise IndexError
  | Some e =>
      modify (set_history (removelast h ++ [add_like e]));;
      save_history
  end.

End Program.

Arguments world : clear implicits.
Arguments Py : clear implicits.

(** ** Concrete worlds *)

(** The state right after module load, in an empty working directory. *)
Definition initial_world : world stored :=
  World INGREDIENT_CATEGORIES_literal INGREDIENT_PROFILES_literal
        [] [] ∅ "2024-05-01T12:00:00".

(** A session in which three ingredients have been picked. *)
Definition cooking_world : world stored :=
  set_selected_ingredients ["Tomato"; "Eggs"; "Rice"] initial_world.

(** The same three ingredients picked in another order, one of them held
    twice in the selection. *)
Definition shuffled_world : world stored :=
  set_selected_ingredients ["Eggs"; "Tomato"; "Tomato"; "Rice"] initial_world.

(** A session in which only the first of them has been picked. *)
Definition tomato_world : world stored :=
  set_selected_ingredients ["Tomato"] initial_world.

(** A manager holding one recipe. *)
Definition one_recipe_world : world stored :=
  set_history [Entry "a recipe" "2024-05-01T12:00:00" ["Tomato"; "Basil"] 0
                     ["vegan"; "vegetarian"; "healthy"; "flavor-enhancer"]]
              cooking_world.

(** A working directory whose history file does not parse. *)
Definition corrupt_world : world stored :=
  set_files {[ history_file := Unparsable "[{" ]} one_recipe_world.

(** A working directory whose history file holds the JSON text [{}]: valid
    JSON, but an object and not a list of entries. *)
Definition wrong_shape_world : world stored :=
  set_files {[ history_file := Holding (JObject []) ]} one_recipe_world.

(** A working directory whose history file holds the history in memory. *)
Definition saved_world : world stored :=
  set_files {[ history_file := stored_dumps (history one_recipe_world) ]}
            one_recipe_world.

(** A history entry holding the selection [sel]. *)
Definition entry_of (sel : list string) : entry :=
  Entry "a recipe" "2024-05-01T12:00:00" sel 0 [].

(** The history of the specification's example. *)
Definition abc_history : list entry :=
  [entry_of ["A"; "B"]; entry_of ["A"; "B"]; entry_of ["A"; "C"]].

(** A history whose only entry repeats a name. *)
Definition repeating_history : list entry :=
  [entry_of ["A"; "A"; "B"]].

(** A history with four distinct pairs, two of them met once: (A,B) in the
    first entry and (G,H) in the last one. *)
Definition tie_history : list entry :=
  [entry_of ["A"; "B"]; entry_of ["C"; "D"]; entry_of ["C"; "D"];
   entry_of ["E"; "F"]; entry_of ["E"; "F"]; entry_of ["E"; "F"];
   entry_of ["G"; "H"]].

(** ** The script [main] *)

(** What the sidebar loops leave in the selection: each picked item is
    appended unless it is already there. *)
Definition extend_selection (selection items : list string) : list string :=
  foldl (fun selection item =>
    if bool_decide (item ∈ selection) then selection else selection ++ [item])
    selection items.

(** The items picked in one run, category after category. *)
Definition picked_items {V} (available : pydict V) (picks : string → list string)
    : list string :=
  kv ← available; picks (fst kv).

(** The entries of [st.session_state] other than the selection; [None] is
    an absent key. *)
Record session : Type := Session {
  available_ingredients : option (pydict (list string));
  session_recipe : option string;
  session_nutrition : option nutrition
}.

(** What the user and the recipe service feed one run of the script: the
    value of each category's multiselect, the two buttons, and what
    [get_recipe] answers if it is called ([None] when it raises). *)
Record click : Type := Click {
  picks : string → list string;
  generate_pressed : bool;
  reply : option string;
  like_pressed : bool
}.

(** What a run displays: the pairing suggestions of the sidebar, the options
    of the cooking-method selectbox, the recipe, the nutrition metrics and
    the popular combinations. *)
Record view : Type := View {
  suggestions : list (string * list string);
  offered_methods : list string;
  shown_recipe : option string;
  shown_nutrition : option nutrition;
  popular_combinations : list (string * string * Z)
}.

(** How a run can stop before its last line.  [UntypedHistory v] is where
    the model leaves a run that goes on with [recipe_manager.history] bound
    to [v], a stored JSON value that is not a list of entries: the state is
    the one reached when the manager has been created. *)
Inductive ending : Type :=
  | Rerun                      (* st.rerun() *)
  | Uncaught (e : exn)         (* an exception of the modelled code *)
  | GenerationFailure          (* get_recipe raised *)
  | AttributeError             (* st.session_state.nutrition is absent *)
  | UntypedHistory (v : json). (* the outcome [Untyped v] *)

Section Application.

Context {document : Type}.
Variable json_dumps : list entry → document.
Variable json_loads : document → option json.
Variable set_iter : pyset → list string.

#[local] Existing Instance Py_ret.
#[local] Existing Instance Py_bind.

(** *** The sidebar (lines 167-180) *)

(** The body of [for item in selected:]; the result is what [st.info]
    shows. *)
Definition sidebar_item (item : string) : Py document (list (string * list string)) :=
  selection ← gets selected_ingredients;
  if bool_decide (item ∈ selection) then mret []
  else
    modify (set_selected_ingredients (selection ++ [item]));;
    profiles ← gets INGREDIENT_PROFILES;
    match profiles !! item with
    | Some p => mret [(item, pairs_with p)]
    | None => mret []
    end.

Fixpoint sidebar_items (selected : list string)
    : Py document (list (string * list string)) :=
  match selected with
  | [] => mret []
  | item :: rest =>
      shown ← sidebar_item item;
      shown' ← sidebar_items rest;
      mret (shown ++ shown')
  end.

(** [for category, items in st.session_state.available_ingredients.items():] *)
Fixpoint sidebar (available : pydict (list string)) (picks : string → list string)
    : Py document (list (string * list string)) :=
  match available with
  | [] => mret []
  | (category, _) :: rest =>
      shown ← sidebar_items (picks category);
      shown' ← sidebar rest picks;
      mret (shown ++ shown')
  end.

(** *** Runs of the script *)

(** Computations over the session and the world that return or stop the
    run. *)
Definition Run (A : Type) : Type :=
  session * world document → (A + ending) * (session * world document).

#[local] Instance Run_ret : MRet Run := fun A a st => (inl a, st).

#[local] Instance Run_bind : MBind Run := fun A B f m st =>
  match m st with
  | (inl a, st') => f a st'
  | (inr e, st') => (inr e, st')
  end.

Definition stop {A} (e : ending) : Run A := fun st => (inr e, st).

Definition lift_py {A} (m : Py document A) : Run A := fun st =>
  match m (snd st) with
  | (Return a, w) => (inl a, (fst st, w))
  | (Raise e, w) => (inr (Uncaught e), (fst st, w))
  | (Untyped v, w) => (inr (UntypedHistory v), (fst st, w))
  end.

Definition session_gets {A} (f : session → A) : Run A :=
  fun st => (inl (f (fst st)), st).

Definition session_modify (f : session → session) : Run unit :=
  fun st => (inl tt, (f (fst st), snd st)).

Definition set_available (a : pydict (list string)) (s : session) : session :=
  Session (Some a) (session_recipe s) (session_nutrition s).

Definition set_session_recipe (r : string) (s : session) : session :=
  Session (available_ingredients s) (Some r) (session_nutrition s).

Definition set_session_nutrition (n : nutrition) (s : session) : session :=
  Session (available_ingredients s) (session_recipe s) (Some n).

(** Lines 142-143; the result is [st.session_state.available_ingredients]. *)
Definition init_available_ingredients : Run (pydict (list string)) :=
  present ← session_gets available_ingredients;
  match present with
  | Some available => mret available
  | None =>
      categories ← lift_py (gets INGREDIENT_CATEGORIES);
      let available := (fun kv => (fst kv, items (snd kv))) <$> categories in
      session_modify (set_available available);;
      mret available
  end.

(** The body of [if st.button("Generate Recipe"):] (lines 198-208). *)
Definition generate_clicked (reply : option string) : Run unit :=
  match reply with
  | None => stop GenerationFailure
  | Some recipe =>
      selection ← lift_py (gets selected_ingredients);
      nutrition ← lift_py (analyze_nutrition selection);
      session_modify (set_session_recipe recipe);;
      session_modify (set_session_nutrition nutrition);;
      lift_py (add_recipe json_dumps set_iter recipe);;
      stop Rerun
  end.

(** [st.session_state.nutrition] *)
Definition read_session_nutrition : Run nutrition :=
  present ← session_gets session_nutrition;
  match present with
  | Some n => mret n
  | None => stop AttributeError
  end.

(** [with col1:] (lines 185-210); the result is the list of options of the
    cooking-method selectbox. *)
Definition column1 (c : click) : Run (list string) :=
  selection ← lift_py (gets selected_ingredients);
  match selection with
  | [] => mret []
  | _ :: _ =>
      cooking_methods ← lift_py (get_cooking_methods set_iter);
      (if generate_pressed c then generate_clicked (reply c) else mret tt);;
      mret cooking_methods
  end.

(** [with col2:] and [with col3:] (lines 212-256); [shown] is what the
    sidebar displayed and [offered] what [column1] offered. *)
Definition columns_2_3 (c : click) (shown : list (string * list string))
    (offered : list string) : Run view :=
  present ← session_gets session_recipe;
  match present with
  | None => mret (View shown offered None None [])
  | Some recipe =>
      (if like_pressed c then lift_py (like_clicked json_dumps) else mret tt);;
      nutrition ← read_session_nutrition;
      h ← lift_py (gets history);
      mret (View shown offered (Some recipe) (Some nutrition) (main_top_combos h))
  end.

Definition main (c : click) : Run view :=
  available ← init_available_ingredients;
  lift_py (RecipeManager json_loads);;
  shown ← lift_py (sidebar available (picks c));
  offered ← column1 c;
  columns_2_3 c shown offered.

(** The state after a sequence of runs, however each run stopped. *)
Fixpoint runs (cs : list click) (st : session * world document)
    : session * world document :=
  match cs with
  | [] => st
  | c :: cs' => runs cs' (snd (main c st))
  end.

End Application.

Arguments Run : clear implicits.

(** A session that has not run the script yet. *)
Definition initial_session : session := Session None None None.

(** A run in which nothing is picked and no button pressed. *)
Definition idle : click := Click (fun _ => []) false None false.

(** Picking tomato and basil. *)
Definition pick_tomato_basil : click :=
  Click (fun category =>
           if String.eqb category "Vegetables" then ["Tomato"]
           else if String.eqb category "Herbs" then ["Basil"] else [])
        false None false.

(** Pressing Generate while the service answers, and while it fails. *)
Definition generate_ok : click :=
  Click (picks pick_tomato_basil) true (Some "Caprese") false.

Definition generate_fails : click :=
  Click (picks pick_tomato_basil) true None false.

(** Pressing Like. *)
Definition like : click :=
  Click (picks pick_tomato_basil) false None true.

(** The state before the first run, in an empty directory, and the state
    after picking tomato and basil and generating a recipe. *)
Definition start : session * world stored := (initial_session, initial_world).

Definition after_generate : session * world stored :=
  runs stored_dumps stored_loads distinct_members [generate_ok] start.

(** The entry of [one_recipe_world]. *)
Definition tomato_basil_entry : entry :=
  Entry "a recipe" "2024-05-01T12:00:00" ["Tomato"; "Basil"] 0
        ["vegan"; "vegetarian"; "healthy"; "flavor-enhancer"].

(** The Proteins and Pantry categories of the source. *)
Definition proteins_literal : category :=
  Category ["Eggs"; "Chicken"; "Tofu"; "Beef"; "Fish"; "Lentils"] ["high-protein"].

Definition pantry_literal : category :=
  Category ["Rice"; "Pasta"; "Flour"; "Oil"; "Salt"; "Pepper"] ["staples"].

(** ** Further reference notions *)

(** [w'] differs from [w] at most in the history in memory and in the
    history file. *)
Definition same_outside_store {document} (w w' : world document) : Prop :=
  INGREDIENT_CATEGORIES w' = INGREDIENT_CATEGORIES w
  ∧ INGREDIENT_PROFILES w' = INGREDIENT_PROFILES w
  ∧ selected_ingredients w' = selected_ingredients w
  ∧ now w' = now w
  ∧ ∀ f : string, f ≠ history_file → files w' !! f = files w !! f.

(** [e] with [n] more likes. *)
Definition with_more_likes (n : Z) (e : entry) : entry :=
  Entry (recipe e) (timestamp e) (ingredients e) (likes e + n) (dietary_tags e).

(** [e'] is [e] up to likes, which did not go down. *)
Definition same_but_likes (e e' : entry) : Prop :=
  recipe e' = recipe e ∧ timestamp e' = timestamp e
  ∧ ingredients e' = ingredients e ∧ dietary_tags e' = dietary_tags e
  ∧ likes e ≤ likes e'.

(** The items of the category [name], none when the catalog lacks it. *)
Definition items_of (categories : pydict category) (name : string) : list string :=
  match getitem categories name with
  | Return c => items c
  | _ => []
  end.

(** [st.session_state.available_ingredients] once line 143 has run. *)
Definition available_of {document} (s : session) (w : world document)
    : pydict (list string) :=
  match available_ingredients s with
  | Some available => available
  | None => (fun kv => (fst kv, items (snd kv))) <$> INGREDIENT_CATEGORIES w
  end.



(** Some selected name is among [xs]. *)
Definition selects (selection xs : list string) : Prop :=
  ∃ i, i ∈ selection ∧ i ∈ xs.

(** ** Properties *)

(** *** Histories as JSON values *)

Lemma as_strings_to_json (l : list string) :
  as_strings (JArray (JString <$> l)) = Some l.
Proof.
  unfold as_strings. apply mapM_Some. induction l as [|x l IH]; simpl.
  - constructor.
  - constructor; [reflexivity|exact IH].
Qed.

Lemma as_entry_to_json (e : entry) : as_entry (entry_to_json e) = Some e.
Proof.
  destruct e as [r t sel n tgs]. unfold entry_to_json, as_entry.
  cbn [recipe timestamp ingredients likes dietary_tags String.eqb Ascii.eqb
       Bool.eqb andb].
  rewrite !as_strings_to_json. reflexivity.
Qed.

(** A history written as JSON reads back as that history. *)
Lemma as_history_to_json (h : list entry) : as_history (to_json h) = Some h.
Proof.
  unfold as_history, to_json. apply mapM_Some.
  induction h as [|e h IH]; simpl.
  - constructor.
  - constructor; [apply as_entry_to_json|exact IH].
Qed.

Section Properties.

Context {document : Type}.
Variable json_dumps : list entry → document.
Variable json_loads : document → option json.
Variable set_iter : pyset → list string.

Implicit Types (w : world document) (S : list string).

(** Unfolds the monad's operations in a goal that runs a computation. *)
Ltac run_py :=
  repeat (unfold in_category, load_history, save_history, get_dietary_tags,
            get_cooking_methods, add_recipe, RecipeManager, select_item,
            like_clicked, mbind, Py_bind, mret, Py_ret, gets, modify, lift,
            raise, untyped; cbn beta iota).

(** *** Auxiliary facts on the Python values *)

Lemma foldl_add_sum_over (l : list Z) (a : Z) :
  foldl Z.add a l = a + sum_over id l.
Proof.
  revert a. induction l as [|x l IH]; intros a; simpl; [lia|].
  rewrite IH. unfold id. lia.
Qed.

Lemma py_sum_map {A} (f : A → Z) (l : list A) :
  py_sum (map f l) = sum_over f l.
Proof.
  unfold py_sum. rewrite foldl_add_sum_over.
  assert (sum_over id (map f l) = sum_over f l) as ->; [|lia].
  induction l as [|x l IH]; simpl; [reflexivity|]. rewrite IH. reflexivity.
Qed.

Lemma list_len_filter_members (xs S : list string) :
  list_len (List.filter (fun i => bool_decide (i ∈ xs)) S) = count_members xs S.
Proof.
  unfold list_len. induction S as [|i S IH]; simpl; [reflexivity|].
  destruct (bool_decide (i ∈ xs)); simpl; lia.
Qed.

Lemma count_members_nonneg (xs S : list string) : 0 ≤ count_members xs S.
Proof.
  induction S as [|i S IH]; simpl; [lia|].
  destruct (bool_decide (i ∈ xs)); lia.
Qed.

Lemma sum_over_nonneg {A} (f : A → Z) (l : list A) :
  (∀ x, 0 ≤ f x) → 0 ≤ sum_over f l.
Proof.
  intros Hf. induction l as [|x l IH]; simpl; [lia|]. specialize (Hf x). lia.
Qed.

(** *** analyze_nutrition *)

Lemma in_category_run (name : string) (c : category) w (i : string) :
  getitem (INGREDIENT_CATEGORIES w) name = Return c →
  in_category name i w = (Return (bool_decide (i ∈ items c)), w).
Proof. intros Hc. run_py. rewrite Hc. reflexivity. Qed.

Lemma filterM_in_category (name : string) (c : category) w S :
  getitem (INGREDIENT_CATEGORIES w) name = Return c →
  filterM (in_category name) S w =
    (Return (List.filter (fun i => bool_decide (i ∈ items c)) S), w).
Proof.
  intros Hc. induction S as [|i S IH]; [reflexivity|].
  cbn [filterM List.filter]. unfold mbind, Py_bind.
  rewrite (in_category_run _ _ _ _ Hc), IH.
  destruct (bool_decide (i ∈ items c)); reflexivity.
Qed.

Lemma analyze_nutrition_returns w S (prot pant : category) :
  getitem (INGREDIENT_CATEGORIES w) "Proteins" = Return prot →
  getitem (INGREDIENT_CATEGORIES w) "Pantry" = Return pant →
  analyze_nutrition S w =
    (Return (Nutrition (sum_over (fun i => 10 * str_len i) S)
                       (15 * count_members (items prot) S)
                       (20 * count_members (items pant) S)), w).
Proof.
  intros Hprot Hpant. unfold analyze_nutrition, mbind, Py_bind.
  rewrite (filterM_in_category _ _ _ _ Hprot).
  rewrite (filterM_in_category _ _ _ _ Hpant).
  unfold mret, Py_ret. rewrite py_sum_map, !list_len_filter_members.
  do 3 f_equal; [|lia..].
  induction S as [|i S IH]; simpl; [reflexivity|]. rewrite IH. lia.
Qed.

(** C4.  In a world whose catalog has the Proteins and Pantry categories,
    [analyze_nutrition S] returns, for every selection sequence [S]:
    calories, the sum over all elements of [S] (repeats included) of ten
    times the length of the name; protein, fifteen times the number of
    elements of [S] among the Proteins items; carbs, twenty times the number
    of elements of [S] among the Pantry items.  The three figures are
    non-negative, the empty selection gives all zeros, and [["Eggs"]] gives
    40 calories. *)
Theorem analyze_nutrition_spec w S (prot pant : category) :
  getitem (INGREDIENT_CATEGORIES w) "Proteins" = Return prot →
  getitem (INGREDIENT_CATEGORIES w) "Pantry" = Return pant →
  ∃ n : nutrition,
    analyze_nutrition S w = (Return n, w)
    ∧ calories n = sum_over (fun i => 10 * str_len i) S
    ∧ protein n = 15 * count_members (items prot) S
    ∧ carbs n = 20 * count_members (items pant) S
    ∧ 0 ≤ calories n ∧ 0 ≤ protein n ∧ 0 ≤ carbs n
    ∧ (S = [] → n = Nutrition 0 0 0)
    ∧ (S = ["Eggs"] → calories n = 40).
Proof.
  intros Hprot Hpant. eexists. split.
  { apply (analyze_nutrition_returns _ _ _ _ Hprot Hpant). }
  cbn [calories protein carbs].
  repeat split.
  - apply sum_over_nonneg. intros x. unfold str_len. lia.
  - pose proof (count_members_nonneg (items prot) S). lia.
  - pose proof (count_members_nonneg (items pant) S). lia.
  - intros ->. reflexivity.
  - intros ->. reflexivity.
Qed.

(** Every occurrence of a name counts: splitting off the occurrences of [x]. *)
Lemma sum_over_split (f : string → Z) (x : string) S :
  sum_over f S = f x * occurrences x S + sum_over f (filter (fun i => i ≠ x) S).
Proof.
  induction S as [|i S IH]; simpl; [lia|].
  destruct (decide (x = i)) as [<-|Hne].
  - rewrite filter_cons_False by (intros H; apply H; reflexivity). lia.
  - rewrite filter_cons_True by congruence. simpl. lia.
Qed.

Lemma count_members_split (xs : list string) (x : string) S :
  count_members xs S =
    (if bool_decide (x ∈ xs) then occurrences x S else 0)
    + count_members xs (filter (fun i => i ≠ x) S).
Proof.
  induction S as [|i S IH]; simpl.
  - destruct (bool_decide (x ∈ xs)); reflexivity.
  - destruct (decide (x = i)) as [<-|Hne].
    + rewrite filter_cons_False by (intros H; apply H; reflexivity).
      destruct (bool_decide (x ∈ xs)); lia.
    + rewrite filter_cons_True by congruence. simpl.
      destruct (bool_decide (x ∈ xs)), (bool_decide (i ∈ xs)); lia.
Qed.

(** C10.  No figure of [analyze_nutrition] deduplicates the selection: a
    name [x] occurring [n] times in [S] adds [10 * len x * n] to calories,
    and, when [x] is a Proteins item, [15 * n] to protein, when it is a
    Pantry item, [20 * n] to carbs, on top of the figures of [S] without
    [x]. *)
Theorem analyze_nutrition_counts_repeats w S (x : string) (prot pant : category) :
  getitem (INGREDIENT_CATEGORIES w) "Proteins" = Return prot →
  getitem (INGREDIENT_CATEGORIES w) "Pantry" = Return pant →
  ∃ n n' : nutrition,
    analyze_nutrition S w = (Return n, w)
    ∧ analyze_nutrition (filter (fun i => i ≠ x) S) w = (Return n', w)
    ∧ calories n = 10 * str_len x * occurrences x S + calories n'
    ∧ (x ∈ items prot → protein n = 15 * occurrences x S + protein n')
    ∧ (x ∈ items pant → carbs n = 20 * occurrences x S + carbs n').
Proof.
  intros Hprot Hpant. do 2 eexists.
  split; [apply (analyze_nutrition_returns _ _ _ _ Hprot Hpant)|].
  split; [apply (analyze_nutrition_returns _ _ _ _ Hprot Hpant)|].
  cbn [calories protein carbs]. split; [|split].
  - apply (sum_over_split (fun i => 10 * str_len i)).
  - intros Hx. rewrite (count_members_split (items prot) x S).
    rewrite bool_decide_eq_true_2 by exact Hx. lia.
  - intros Hx. rewrite (count_members_split (items pant) x S).
    rewrite bool_decide_eq_true_2 by exact Hx. lia.
Qed.

(** *** Purity of the three derivations *)

Lemma in_category_pure (name : string) w (i : string) :
  snd (in_category name i w) = w.
Proof. run_py. destruct (getitem _ _); reflexivity. Qed.

Lemma filterM_in_category_pure (name : string) w S :
  snd (filterM (in_category name) S w) = w.
Proof.
  induction S as [|i S IH]; [reflexivity|].
  cbn [filterM]. unfold mbind, Py_bind.
  pose proof (in_category_pure name w i) as Hi.
  destruct (in_category name i w) as [[b|e|v] w1]; simpl in Hi; subst w1;
    [|reflexivity..].
  destruct (filterM (in_category name) S w) as [[r|e|v] w2]; simpl in IH; subst w2;
    reflexivity.
Qed.

Lemma analyze_nutrition_pure w S : snd (analyze_nutrition S w) = w.
Proof.
  unfold analyze_nutrition, mbind, Py_bind.
  pose proof (filterM_in_category_pure "Proteins" w S) as H1.
  destruct (filterM (in_category "Proteins") S w) as [[r1|e1|v1] w1];
    simpl in H1; subst w1; [|reflexivity..].
  pose proof (filterM_in_category_pure "Pantry" w S) as H2.
  destruct (filterM (in_category "Pantry") S w) as [[r2|e2|v2] w2];
    simpl in H2; subst w2; reflexivity.
Qed.

Lemma filterM_in_category_raise (name : string) (e : exn) w S :
  getitem (INGREDIENT_CATEGORIES w) name = Raise e →
  filterM (in_category name) S w =
    (match S with [] => Return [] | _ :: _ => Raise e end, w).
Proof.
  intros He. destruct S as [|i S]; [reflexivity|].
  cbn [filterM]. run_py. rewrite He. reflexivity.
Qed.

Lemma getitem_typed {V} (d : pydict V) (k : string) (v : json) :
  getitem d k ≠ Untyped v.
Proof.
  induction d as [|[k' x] d IH]; simpl; [discriminate|].
  destruct (String.eqb k' k); [discriminate|exact IH].
Qed.

Lemma filterM_in_category_reads (name : string) w w' S :
  INGREDIENT_CATEGORIES w' = INGREDIENT_CATEGORIES w →
  fst (filterM (in_category name) S w') = fst (filterM (in_category name) S w).
Proof.
  intros Hc. destruct (getitem (INGREDIENT_CATEGORIES w) name) as [c|e|v] eqn:Hg.
  - rewrite (filterM_in_category name c w S Hg).
    rewrite (filterM_in_category name c w' S) by (rewrite Hc; exact Hg).
    reflexivity.
  - rewrite (filterM_in_category_raise name e w S Hg).
    rewrite (filterM_in_category_raise name e w' S) by (rewrite Hc; exact Hg).
    reflexivity.
  - destruct (getitem_typed _ _ _ Hg).
Qed.

Lemma analyze_nutrition_reads w w' S :
  INGREDIENT_CATEGORIES w' = INGREDIENT_CATEGORIES w →
  fst (analyze_nutrition S w') = fst (analyze_nutrition S w).
Proof.
  intros Hc. unfold analyze_nutrition, mbind, Py_bind.
  pose proof (filterM_in_category_reads "Proteins" w w' S Hc) as H1.
  pose proof (filterM_in_category_pure "Proteins" w S) as P1.
  pose proof (filterM_in_category_pure "Proteins" w' S) as P1'.
  destruct (filterM (in_category "Proteins") S w) as [o1 w1],
           (filterM (in_category "Proteins") S w') as [o1' w1'].
  simpl in H1, P1, P1'. subst o1' w1 w1'.
  destruct o1 as [r1|e1|v1]; [|reflexivity..].
  pose proof (filterM_in_category_reads "Pantry" w w' S Hc) as H2.
  destruct (filterM (in_category "Pantry") S w) as [o2 w2],
           (filterM (in_category "Pantry") S w') as [o2' w2'].
  simpl in H2. subst o2'. destruct o2; reflexivity.
Qed.

(** C9.  [get_dietary_tags], [get_cooking_methods] and [analyze_nutrition]
    leave the whole world as it was (selection, catalog, history, files);
    a second call, made in the world the first one left, gives the same
    result as the first; and the result is the same in any other world with
    the same selection and catalog, whatever its history, files and clock. *)
Theorem derivations_are_pure w S :
  (snd (get_dietary_tags set_iter w) = w
   ∧ get_dietary_tags set_iter (snd (get_dietary_tags set_iter w))
     = get_dietary_tags set_iter w
   ∧ ∀ w', selected_ingredients w' = selected_ingredients w →
           INGREDIENT_CATEGORIES w' = INGREDIENT_CATEGORIES w →
           fst (get_dietary_tags set_iter w') = fst (get_dietary_tags set_iter w))
  ∧ (snd (get_cooking_methods set_iter w) = w
     ∧ get_cooking_methods set_iter (snd (get_cooking_methods set_iter w))
       = get_cooking_methods set_iter w
     ∧ ∀ w', selected_ingredients w' = selected_ingredients w →
             INGREDIENT_PROFILES w' = INGREDIENT_PROFILES w →
             fst (get_cooking_methods set_iter w')
             = fst (get_cooking_methods set_iter w))
  ∧ (snd (analyze_nutrition S w) = w
     ∧ analyze_nutrition S (snd (analyze_nutrition S w)) = analyze_nutrition S w
     ∧ ∀ w', INGREDIENT_CATEGORIES w' = INGREDIENT_CATEGORIES w →
             fst (analyze_nutrition S w') = fst (analyze_nutrition S w)).
Proof.
  assert (snd (get_dietary_tags set_iter w) = w) as Ht by reflexivity.
  assert (snd (get_cooking_methods set_iter w) = w) as Hm by reflexivity.
  pose proof (analyze_nutrition_pure w S) as Hn.
  split; [|split]; (split; [assumption|split]).
  - rewrite Ht. reflexivity.
  - intros w' Hs Hc. run_py. cbn [fst]. rewrite Hs, Hc. reflexivity.
  - rewrite Hm. reflexivity.
  - intros w' Hs Hp. run_py. cbn [fst]. rewrite Hs, Hp. reflexivity.
  - rewrite Hn. reflexivity.
  - intros w' Hc. apply analyze_nutrition_reads, Hc.
Qed.

(** *** Dietary tags and cooking methods *)

Lemma methods_loop (profiles : gmap string profile) S (acc : pyset) :
  members (foldl (fun methods ingredient =>
      match profiles !! ingredient with
      | Some p => set_update methods (cooking_methods p)
      | None => methods
      end) acc S)
  = members acc ∪ ⋃ (methods_of profiles <$> S).
Proof.
  revert acc. induction S as [|i S IH]; intros acc; simpl.
  - rewrite (right_id_L ∅ (∪)). reflexivity.
  - rewrite IH. unfold methods_of at 2, members, set_update.
    destruct (profiles !! i) as [p|].
    + rewrite list_to_set_app_L, (assoc_L (∪)). reflexivity.
    + rewrite (left_id_L ∅ (∪)). reflexivity.
Qed.

(** [list(s)] lists the members of [s], whatever the order. *)
Hypothesis set_iter_members : ∀ (s : pyset) (x : string), x ∈ set_iter s ↔ x ∈ s.

Lemma tags_inner_loop (i : string) (cs : list category) (acc : pyset) (t : string) :
  t ∈ foldl (fun all_tags category =>
        if bool_decide (i ∈ items category)
        then set_update all_tags (tags category)
        else all_tags) acc cs
  ↔ t ∈ acc ∨ ∃ c, c ∈ cs ∧ i ∈ items c ∧ t ∈ tags c.
Proof.
  revert acc. induction cs as [|c cs IH]; intros acc; simpl.
  - split; [auto|]. intros [H|(c & Hc & _)]; [exact H|]. inversion Hc.
  - rewrite IH. unfold set_update. case_bool_decide as Hi.
    + rewrite elem_of_app. split.
      * intros [[H|H]|(c' & Hc' & H)]; [auto| |].
        -- right. exists c. split; [left|auto].
        -- right. exists c'. split; [right; exact Hc'|exact H].
      * intros [H|(c' & Hc' & Hi' & Ht)]; [auto|].
        apply elem_of_cons in Hc' as [->|Hc']; [auto|].
        right. exists c'. auto.
    + split.
      * intros [H|(c' & Hc' & H)]; [auto|].
        right. exists c'. split; [right; exact Hc'|exact H].
      * intros [H|(c' & Hc' & Hi' & Ht)]; [auto|].
        apply elem_of_cons in Hc' as [->|Hc']; [contradiction|].
        right. exists c'. auto.
Qed.

Lemma tags_outer_loop (cs : list category) S (acc : pyset) (t : string) :
  t ∈ foldl (fun all_tags ingredient =>
        foldl (fun all_tags category =>
          if bool_decide (ingredient ∈ items category)
          then set_update all_tags (tags category)
          else all_tags) all_tags cs) acc S
  ↔ t ∈ acc ∨ ∃ i c, i ∈ S ∧ c ∈ cs ∧ i ∈ items c ∧ t ∈ tags c.
Proof.
  revert acc. induction S as [|i S IH]; intros acc; simpl.
  - split; [auto|]. intros [H|(i & c & Hi & _)]; [exact H|]. inversion Hi.
  - rewrite IH, tags_inner_loop. split.
    + intros [[H|(c & Hc & Hi & Ht)]|(i' & c & Hi' & H)]; [auto| |].
      * right. exists i, c. split; [left|auto].
      * right. exists i', c. split; [right; exact Hi'|exact H].
    + intros [H|(i' & c & Hi' & Hc & Hi & Ht)]; [auto|].
      apply elem_of_cons in Hi' as [->|Hi'].
      * left. right. exists c. auto.
      * right. exists i', c. auto.
Qed.

(** C7.  [get_dietary_tags] always returns, changing nothing.  A tag is in
    the result exactly when some selected ingredient is an item of some
    category carrying that tag: so every category listing an ingredient
    contributes its tags, and an ingredient no category lists contributes
    nothing.  The result lies within the union of all category tag sets, and
    is empty for the empty selection and for a selection of uncatalogued
    ingredients. *)
Theorem get_dietary_tags_spec w :
  ∃ r : list string,
    get_dietary_tags set_iter w = (Return r, w)
    ∧ (∀ t, t ∈ r ↔
         ∃ i c, i ∈ selected_ingredients w
                ∧ c ∈ values (INGREDIENT_CATEGORIES w)
                ∧ i ∈ items c ∧ t ∈ tags c)
    ∧ list_to_set r ⊆ catalog_tags (INGREDIENT_CATEGORIES w)
    ∧ (selected_ingredients w = [] → r = [])
    ∧ ((∀ i c, i ∈ selected_ingredients w →
               c ∈ values (INGREDIENT_CATEGORIES w) → i ∉ items c) → r = []).
Proof.
  eexists. split; [reflexivity|].
  assert (∀ t, t ∈ set_iter
      (foldl (fun all_tags ingredient =>
         foldl (fun all_tags category =>
           if bool_decide (ingredient ∈ items category)
           then set_update all_tags (tags category)
           else all_tags) all_tags (values (INGREDIENT_CATEGORIES w)))
         set_new (selected_ingredients w)) ↔
      ∃ i c, i ∈ selected_ingredients w
             ∧ c ∈ values (INGREDIENT_CATEGORIES w)
             ∧ i ∈ items c ∧ t ∈ tags c) as Hchar.
  { intros t. rewrite set_iter_members, tags_outer_loop. unfold set_new.
    split; [|auto]. intros [H|H]; [inversion H|exact H]. }
  split; [exact Hchar|]. split; [|split].
  - intros t Ht. apply elem_of_list_to_set, Hchar in Ht.
    destruct Ht as (i & c & _ & Hc & _ & Ht).
    unfold catalog_tags. apply elem_of_union_list.
    exists (list_to_set (tags c)). split.
    + apply list_elem_of_fmap. exists c. auto.
    + apply elem_of_list_to_set. exact Ht.
  - intros Hsel. apply elem_of_nil_inv. intros t Ht.
    apply Hchar in Ht as (i & c & Hi & _). rewrite Hsel in Hi. inversion Hi.
  - intros Hnone. apply elem_of_nil_inv. intros t Ht.
    apply Hchar in Ht as (i & c & Hi & Hc & Hic & _).
    exact (Hnone i c Hi Hc Hic).
Qed.

(** C8.  [get_cooking_methods] always returns, changing nothing, and the
    result, as a set, is the union over the selected ingredients of the
    cooking methods of their profile, an ingredient without a profile
    contributing the empty set. *)
Theorem get_cooking_methods_spec w :
  ∃ r : list string,
    get_cooking_methods set_iter w = (Return r, w)
    ∧ list_to_set r
      = ⋃ (methods_of (INGREDIENT_PROFILES w) <$> selected_ingredients w)
    ∧ (∀ i, INGREDIENT_PROFILES w !! i = None →
            methods_of (INGREDIENT_PROFILES w) i = ∅)
    ∧ (∀ i p, INGREDIENT_PROFILES w !! i = Some p →
              methods_of (INGREDIENT_PROFILES w) i = list_to_set (cooking_methods p)).
Proof.
  eexists. split; [reflexivity|]. split; [|split].
  - apply set_eq. intros m.
    rewrite elem_of_list_to_set, set_iter_members.
    rewrite <- (elem_of_list_to_set (C := gset string)).
    fold (members (foldl (fun methods ingredient =>
      match INGREDIENT_PROFILES w !! ingredient with
      | Some p => set_update methods (cooking_methods p)
      | None => methods
      end) set_new (selected_ingredients w))).
    rewrite methods_loop. unfold members, set_new.
    rewrite elem_of_union, elem_of_list_to_set. split; [|auto].
    intros [H|H]; [inversion H|exact H].
  - intros i Hi. unfold methods_of. rewrite Hi. reflexivity.
  - intros i p Hi. unfold methods_of. rewrite Hi. reflexivity.
Qed.

(** *** The sidebar *)

(** The sidebar never puts a name twice in the session's selection. *)
Lemma select_item_NoDup w (item : string) :
  NoDup (selected_ingredients w) →
  NoDup (selected_ingredients (snd (select_item item w))).
Proof.
  intros Hnd. run_py. case_bool_decide as Hin; [exact Hnd|].
  cbn [snd selected_ingredients set_selected_ingredients].
  apply NoDup_app. split; [exact Hnd|]. split; [|apply NoDup_singleton].
  intros x Hx Hx'. apply list_elem_of_singleton in Hx'. subst x. contradiction.
Qed.

(** *** The history store *)

Lemma save_history_run w :
  save_history json_dumps w =
    (Return tt, set_files (<[history_file := json_dumps (history w)]> (files w)) w).
Proof. reflexivity. Qed.

Lemma like_clicked_snoc w (h : list entry) (e : entry) :
  history w = h ++ [e] →
  like_clicked json_dumps w =
    (Return tt,
     set_files (<[history_file := json_dumps (h ++ [add_like e])]> (files w))
               (set_history (h ++ [add_like e]) w)).
Proof.
  intros Hh. run_py. rewrite Hh, last_snoc, removelast_last. reflexivity.
Qed.

(** C3.  On an empty history the Like action raises [IndexError] and leaves
    the world, hence the stored file, as it was.  On a history [h ++ [e]] it
    returns, the history becomes [h ++ [e']] where [e'] is [e] with one more
    like and nothing else changed, and the whole new history is written to
    the history file; a second Like brings the counter to two more than at
    the start. *)
Theorem like_clicked_spec w :
  (history w = [] → like_clicked json_dumps w = (Raise IndexError, w))
  ∧ (∀ (h : list entry) (e : entry), history w = h ++ [e] →
       ∃ w1 w2,
         like_clicked json_dumps w = (Return tt, w1)
         ∧ history w1 = h ++ [add_like e]
         ∧ likes (add_like e) = likes e + 1
         ∧ (recipe (add_like e), timestamp (add_like e),
            ingredients (add_like e), dietary_tags (add_like e))
           = (recipe e, timestamp e, ingredients e, dietary_tags e)
         ∧ files w1 = <[history_file := json_dumps (history w1)]> (files w)
         ∧ like_clicked json_dumps w1 = (Return tt, w2)
         ∧ history w2 = h ++ [add_like (add_like e)]
         ∧ likes (add_like (add_like e)) = likes e + 2
         ∧ files w2 = <[history_file := json_dumps (history w2)]> (files w1)).
Proof.
  split.
  - intros Hh. run_py. rewrite Hh. destruct w; reflexivity.
  - intros h e Hh. do 2 eexists.
    split; [apply (like_clicked_snoc _ _ _ Hh)|].
    split; [reflexivity|]. split; [reflexivity|]. split; [reflexivity|].
    split; [reflexivity|].
    split; [apply like_clicked_snoc; reflexivity|].
    split; [reflexivity|]. split; [simpl; lia|]. reflexivity.
Qed.

(** C5.  With no history file in the directory [load_history] returns and
    the history is the empty list.  With a history file that is not JSON it
    raises [JSONDecodeError] and the world (the file and whatever history
    was in memory) is left as it was.  With a history file that is JSON but
    not a list of entries it raises nothing: line 59 binds the value read,
    whatever its shape, to [self.history], and no file is written.  A file
    that holds a list of entries is loaded as that list. *)
Theorem load_history_spec w :
  (files w !! history_file = None →
     load_history json_loads w = (Return tt, set_history [] w)
     ∧ history (set_history [] w) = [])
  ∧ (∀ d : document, files w !! history_file = Some d → json_loads d = None →
       load_history json_loads w = (Raise JSONDecodeError, w))
  ∧ (∀ (d : document) (v : json),
       files w !! history_file = Some d → json_loads d = Some v →
       as_history v = None →
       load_history json_loads w = (Untyped v, w)
       ∧ ∀ e : exn, fst (load_history json_loads w) ≠ Raise e)
  ∧ (∀ (d : document) (h : list entry),
       files w !! history_file = Some d → json_loads d = Some (to_json h) →
       load_history json_loads w = (Return tt, set_history h w)
       ∧ files (set_history h w) = files w).
Proof.
  split; [|split; [|split]].
  - intros Hf. run_py. rewrite Hf. split; reflexivity.
  - intros d Hf Hd. run_py. rewrite Hf, Hd. reflexivity.
  - intros d v Hf Hd Hv.
    assert (load_history json_loads w = (Untyped v, w)) as Hl.
    { run_py. rewrite Hf, Hd, Hv. reflexivity. }
    split; [exact Hl|]. intros e. rewrite Hl. discriminate.
  - intros d h Hf Hd. run_py. rewrite Hf, Hd, as_history_to_json.
    split; reflexivity.
Qed.

(** What [json.load] reads back from what [json.dump] wrote. *)
Hypothesis json_round_trip :
  ∀ h : list entry, json_loads (json_dumps h) = Some (to_json h).

(** C6.  [add_recipe] returns after appending one entry (the recipe text,
    the clock's time, the session's selection, no like, the dietary tags) to
    the history in memory and writing the whole history out.  A manager
    created afterwards, whatever was in memory, loads a history that is the
    previous one followed by that same entry. *)
Theorem add_recipe_then_load w (recipe_data : string) :
  ∃ (tgs : list string) (w1 : world document),
    get_dietary_tags set_iter w = (Return tgs, w)
    ∧ add_recipe json_dumps set_iter recipe_data w = (Return tt, w1)
    ∧ history w1 =
        history w ++ [Entry recipe_data (now w) (selected_ingredients w) 0 tgs]
    ∧ files w1 = <[history_file := json_dumps (history w1)]> (files w)
    ∧ ∀ stale : list entry, ∃ w2,
        RecipeManager json_loads (set_history stale w1) = (Return tt, w2)
        ∧ history w2 = history w1
        ∧ last (history w2)
          = Some (Entry recipe_data (now w) (selected_ingredients w) 0 tgs)
        ∧ take (length (history w)) (history w2) = history w.
Proof.
  do 2 eexists. split; [reflexivity|].
  split; [run_py; cbn [get_dietary_tags]; reflexivity|].
  split; [reflexivity|]. split; [reflexivity|].
  intros stale. eexists. split.
  - run_py. cbn [files set_history set_files].
    rewrite lookup_insert_eq, json_round_trip, as_history_to_json. reflexivity.
  - cbn [history set_history set_files]. split; [reflexivity|].
    split; [apply last_snoc|]. apply take_app_length.
Qed.

End Properties.

(** *** Pair frequencies *)

Section PairFrequency.

Implicit Types (d : list (string * string * Z)) (p k : string * string)
  (s : list (string * string)) (h : list entry) (sel : list string).

(** The nested loops feed [incr] with the pairs of [pair_stream]. *)
Lemma inner_loop_stream (i1 : string) sel d :
  foldl (fun combinations i2 =>
    if str_lt i1 i2 then incr combinations (i1, i2) else combinations) d sel
  = foldl incr d (i2 ← sel; if str_lt i1 i2 then [(i1, i2)] else []).
Proof.
  revert d. induction sel as [|i2 sel IH]; intros d; [reflexivity|].
  rewrite bind_cons, foldl_app. simpl foldl at 1. rewrite IH.
  destruct (str_lt i1 i2); reflexivity.
Qed.

Lemma entry_loop_stream sel' sel d :
  foldl (fun combinations i1 =>
    foldl (fun combinations i2 =>
      if str_lt i1 i2 then incr combinations (i1, i2) else combinations)
      combinations sel) d sel'
  = foldl incr d (i1 ← sel'; i2 ← sel; if str_lt i1 i2 then [(i1, i2)] else []).
Proof.
  revert d. induction sel' as [|i1 sel' IH]; intros d; [reflexivity|].
  rewrite bind_cons, foldl_app. simpl foldl at 1.
  rewrite IH, inner_loop_stream. reflexivity.
Qed.

Lemma history_loop_stream h d :
  foldl (fun combinations entry =>
    foldl (fun combinations i1 =>
      foldl (fun combinations i2 =>
        if str_lt i1 i2 then incr combinations (i1, i2) else combinations)
        combinations (ingredients entry))
      combinations (ingredients entry)) d h
  = foldl incr d (pair_stream h).
Proof.
  revert d. induction h as [|e h IH]; intros d; [reflexivity|].
  unfold pair_stream. rewrite bind_cons, foldl_app. simpl foldl at 1.
  rewrite IH, entry_loop_stream. reflexivity.
Qed.

Lemma count_combinations_stream h :
  count_combinations h = foldl incr [] (pair_stream h).
Proof. apply history_loop_stream. Qed.

(** Counts: [incr] adds one to its key and to nothing else. *)
Lemma count_of_incr d k p :
  count_of (incr d k) p = count_of d p + (if decide (p = k) then 1 else 0).
Proof.
  induction d as [|[k' c] d IH]; simpl.
  - destruct (decide (k = p)), (decide (p = k)); congruence || lia.
  - destruct (decide (k' = k)) as [->|Hk]; simpl.
    + destruct (decide (k = p)), (decide (p = k)); congruence || lia.
    + destruct (decide (k' = p)) as [->|Hp].
      * destruct (decide (p = k)); [congruence|lia].
      * exact IH.
Qed.

Lemma count_of_foldl_incr s d p :
  count_of (foldl incr d s) p = count_of d p + occurrences p s.
Proof.
  revert d. induction s as [|k s IH]; intros d; simpl; [lia|].
  rewrite IH, count_of_incr. lia.
Qed.

Lemma count_of_count_combinations h p :
  count_of (count_combinations h) p = occurrences p (pair_stream h).
Proof. rewrite count_combinations_stream, count_of_foldl_incr. reflexivity. Qed.

Lemma occurrences_app {A} `{EqDecision A} (x : A) (l1 l2 : list A) :
  occurrences x (l1 ++ l2) = occurrences x l1 + occurrences x l2.
Proof. induction l1 as [|y l1 IH]; simpl; lia. Qed.

Lemma occurrences_bind {A B} `{EqDecision B} (y : B) (f : A → list B) (l : list A) :
  occurrences y (l ≫= f) = sum_over (fun x => occurrences y (f x)) l.
Proof.
  induction l as [|x l IH]; [reflexivity|].
  rewrite bind_cons, occurrences_app, IH. reflexivity.
Qed.

Lemma occurrences_nonneg {A} `{EqDecision A} (x : A) (l : list A) :
  0 ≤ occurrences x l.
Proof. induction l as [|y l IH]; simpl; [lia|]. destruct (decide (x = y)); lia. Qed.

Lemma inner_occurrences (a b i1 : string) sel :
  occurrences (a, b) (i2 ← sel; if str_lt i1 i2 then [(i1, i2)] else [])
  = if decide (a = i1) then (if str_lt a b then occurrences b sel else 0) else 0.
Proof.
  rewrite occurrences_bind. induction sel as [|i2 sel IH]; simpl.
  - destruct (decide (a = i1)); [destruct (str_lt a b)|]; reflexivity.
  - rewrite IH. destruct (decide (a = i1)) as [->|Ha].
    + destruct (decide (b = i2)) as [->|Hb].
      * destruct (str_lt i1 i2); simpl; [|lia].
        rewrite decide_True by reflexivity. lia.
      * destruct (str_lt i1 i2); simpl.
        -- rewrite decide_False by congruence. destruct (str_lt i1 b); lia.
        -- destruct (str_lt i1 b); lia.
    + destruct (str_lt i1 i2); simpl; [|lia].
      rewrite decide_False by congruence. lia.
Qed.

Lemma loop_pairs_occurrences (a b : string) sel' sel :
  occurrences (a, b)
    (i1 ← sel'; i2 ← sel; if str_lt i1 i2 then [(i1, i2)] else [])
  = if str_lt a b then occurrences a sel' * occurrences b sel else 0.
Proof.
  induction sel' as [|i1 sel' IH].
  - simpl. destruct (str_lt a b); reflexivity.
  - rewrite bind_cons, occurrences_app, IH, inner_occurrences. simpl.
    destruct (decide (a = i1)), (str_lt a b); lia.
Qed.

Lemma entry_pairs_occurrences (a b : string) sel :
  occurrences (a, b) (entry_pairs sel)
  = if str_lt a b then occurrences a sel * occurrences b sel else 0.
Proof. apply loop_pairs_occurrences. Qed.

Lemma pair_stream_occurrences (a b : string) h :
  occurrences (a, b) (pair_stream h)
  = if str_lt a b
    then sum_over (fun e => occurrences a (ingredients e)
                            * occurrences b (ingredients e)) h
    else 0.
Proof.
  unfold pair_stream. rewrite occurrences_bind.
  induction h as [|e h IH]; simpl.
  - destruct (str_lt a b); reflexivity.
  - rewrite IH, entry_pairs_occurrences. destruct (str_lt a b); lia.
Qed.

(** Strings are totally ordered by [<]: of two distinct names exactly one
    is below the other. *)
Lemma str_lt_total (a b : string) :
  a ≠ b → str_lt a b = negb (str_lt b a).
Proof.
  intros Hab. unfold str_lt, String.ltb.
  rewrite (String.compare_antisym b a).
  destruct (String.compare a b) eqn:Hc; simpl; try reflexivity.
  apply String.compare_eq_iff in Hc. contradiction.
Qed.

Lemma occurrences_NoDup sel (a : string) :
  NoDup sel → occurrences a sel = if bool_decide (a ∈ sel) then 1 else 0.
Proof.
  induction 1 as [|x sel Hx Hnd IH]; cbn [occurrences].
  - rewrite bool_decide_eq_false_2; [reflexivity|]. intros H. inversion H.
  - rewrite IH. destruct (decide (a = x)) as [->|Hne].
    + rewrite (bool_decide_eq_false_2 (x ∈ sel)) by exact Hx.
      rewrite bool_decide_eq_true_2 by left. reflexivity.
    + case_bool_decide as H1; case_bool_decide as H2; try reflexivity.
      * exfalso. apply H2. right. exact H1.
      * exfalso. apply elem_of_cons in H2 as [H2|H2]; contradiction.
Qed.

Lemma sum_over_both (a b : string) h :
  (∀ e, e ∈ h → NoDup (ingredients e)) →
  sum_over (fun e => occurrences a (ingredients e)
                     * occurrences b (ingredients e)) h
  = entries_with_both a b h.
Proof.
  unfold entries_with_both, list_len.
  induction h as [|e h IH]; intros Hnd; [reflexivity|]. simpl.
  rewrite IH by (intros e' He'; apply Hnd; right; exact He').
  rewrite !occurrences_NoDup by (apply Hnd; left).
  destruct (decide (a ∈ ingredients e ∧ b ∈ ingredients e)) as [[Ha Hb]|Hn].
  - rewrite filter_cons_True by auto.
    rewrite !bool_decide_eq_true_2 by assumption. simpl length. lia.
  - rewrite filter_cons_False by exact Hn.
    case_bool_decide; case_bool_decide; try lia. exfalso. apply Hn. auto.
Qed.

(** C1 (as the code has it).  For two distinct names the counts stored
    under the two orderings of the pair add up to the sum, over the entries,
    of the product of the numbers of occurrences of the two names in the
    entry's selection; only the ordering with the smaller name first is ever
    a key.  When no selection repeats a name, as is the case of every
    selection the sidebar builds, this is the number of entries holding both
    names: the pair is counted once per entry. *)
Theorem pair_counted_per_occurrence h (a b : string) :
  a ≠ b →
  count_of (count_combinations h) (a, b) + count_of (count_combinations h) (b, a)
    = sum_over (fun e => occurrences a (ingredients e)
                         * occurrences b (ingredients e)) h
  ∧ (str_lt a b = false → count_of (count_combinations h) (a, b) = 0)
  ∧ ((∀ e, e ∈ h → NoDup (ingredients e)) →
       count_of (count_combinations h) (a, b)
       + count_of (count_combinations h) (b, a)
       = entries_with_both a b h).
Proof.
  intros Hab.
  assert (count_of (count_combinations h) (a, b)
          + count_of (count_combinations h) (b, a)
          = sum_over (fun e => occurrences a (ingredients e)
                               * occurrences b (ingredients e)) h) as Hsum.
  { rewrite !count_of_count_combinations, !pair_stream_occurrences.
    rewrite (str_lt_total a b Hab). destruct (str_lt b a); simpl; [|lia].
    assert (∀ l, sum_over (fun e => occurrences b (ingredients e)
                                    * occurrences a (ingredients e)) l
                 = sum_over (fun e => occurrences a (ingredients e)
                                      * occurrences b (ingredients e)) l) as Hc.
    { induction l as [|e l IH]; simpl; [reflexivity|]. rewrite IH. lia. }
    rewrite Hc. lia. }
  split; [exact Hsum|]. split.
  - intros Hlt. rewrite count_of_count_combinations, pair_stream_occurrences, Hlt.
    reflexivity.
  - intros Hnd. rewrite Hsum. apply sum_over_both, Hnd.
Qed.

(** C1 (as stated): with a name repeated in a selection the pair is counted
    more than once for that entry. *)
Lemma pair_counted_twice_in_repeating_entry :
  count_of (count_combinations repeating_history) ("A", "B") = 2
  ∧ count_of (count_combinations repeating_history) ("B", "A") = 0
  ∧ entries_with_both "A" "B" repeating_history = 1
  ∧ ¬ (∀ (h : list entry) (a b : string), a ≠ b →
         count_of (count_combinations h) (a, b)
         + count_of (count_combinations h) (b, a)
         = entries_with_both a b h).
Proof.
  split; [reflexivity|]. split; [reflexivity|]. split; [reflexivity|].
  intros H.
  assert (Hc := H repeating_history "A" "B" ltac:(discriminate)).
  vm_compute in Hc. discriminate Hc.
Qed.

(** The keys of [combinations] are the distinct pairs of the stream, in the
    order of their first occurrence. *)
Lemma keys_incr d k :
  (incr d k).*1 = if decide (k ∈ d.*1) then d.*1 else d.*1 ++ [k].
Proof.
  induction d as [|[k' c] d IH].
  - destruct (decide (k ∈ ([] : list (string * string * Z)).*1)) as [H|H];
      [inversion H|reflexivity].
  - cbn [incr]. destruct (decide (k' = k)) as [->|Hk].
    + destruct (decide (k ∈ ((k, c) :: d).*1)) as [H|H]; [reflexivity|].
      exfalso. apply H. left.
    + change (((k', c) :: incr d k).*1) with (k' :: (incr d k).*1).
      change (((k', c) :: d).*1) with (k' :: d.*1).
      rewrite IH. destruct (decide (k ∈ d.*1)) as [Hin|Hin].
      * destruct (decide (k ∈ k' :: d.*1)) as [H|H]; [reflexivity|].
        exfalso. apply H. right. exact Hin.
      * destruct (decide (k ∈ k' :: d.*1)) as [H|H]; [|reflexivity].
        apply elem_of_cons in H as [H|H]; congruence.
Qed.

Lemma keys_foldl_incr s d :
  (foldl incr d s).*1 = d.*1 ++ filter (fun p => p ∉ d.*1) (first_occurrences s).
Proof.
  revert d. induction s as [|k s IH]; intros d; simpl.
  - rewrite app_nil_r. reflexivity.
  - rewrite IH, keys_incr. destruct (decide (k ∈ d.*1)) as [Hin|Hin].
    + rewrite filter_cons_False by auto. f_equal.
      rewrite list_filter_filter. apply list_filter_iff. intros p.
      split; [|intros [Hp _]; exact Hp].
      intros Hp. split; [exact Hp|]. intros ->. contradiction.
    + rewrite filter_cons_True by exact Hin.
      rewrite <- app_assoc. simpl. do 2 f_equal.
      rewrite list_filter_filter. apply list_filter_iff. intros p.
      rewrite elem_of_app, list_elem_of_singleton. tauto.
Qed.

Lemma keys_count_combinations h :
  (count_combinations h).*1 = first_occurrences (pair_stream h).
Proof.
  rewrite count_combinations_stream, keys_foldl_incr. simpl.
  induction (first_occurrences (pair_stream h)) as [|p l IH]; [reflexivity|].
  rewrite filter_cons_True; [f_equal; exact IH|]. intros H. inversion H.
Qed.

Lemma elem_of_first_occurrences {A} `{EqDecision A} (x : A) (l : list A) :
  x ∈ first_occurrences l ↔ x ∈ l.
Proof.
  induction l as [|y l IH]; simpl; [reflexivity|].
  rewrite !elem_of_cons, list_elem_of_filter, IH.
  destruct (decide (x = y)); tauto.
Qed.

Lemma NoDup_first_occurrences {A} `{EqDecision A} (l : list A) :
  NoDup (first_occurrences l).
Proof.
  induction l as [|y l IH]; simpl; constructor.
  - rewrite list_elem_of_filter. intros [H _]. apply H. reflexivity.
  - apply NoDup_filter, IH.
Qed.

Lemma first_index_cons_ne {A} `{EqDecision A} (a x : A) (l : list A) :
  x ≠ a → first_index x (a :: l) = S (first_index x l).
Proof. intros Hx. simpl. rewrite decide_False by exact Hx. reflexivity. Qed.

Lemma filter_keeps_order {A} `{EqDecision A} (a : A) (l k : list A) :
  StronglySorted (fun x y => (first_index x l < first_index y l)%nat) k →
  StronglySorted (fun x y => (first_index x (a :: l) < first_index y (a :: l))%nat)
                 (filter (fun y => y ≠ a) k).
Proof.
  induction 1 as [|x k Hk IH Hx]; [constructor|].
  destruct (decide (x ≠ a)) as [Hxa|Hxa].
  - rewrite filter_cons_True by exact Hxa. constructor; [exact IH|].
    apply Forall_forall. intros y Hy.
    apply list_elem_of_filter in Hy as [Hya Hy].
    rewrite Forall_forall in Hx. specialize (Hx y Hy).
    rewrite !first_index_cons_ne by assumption. lia.
  - rewrite filter_cons_False by exact Hxa. exact IH.
Qed.

Lemma first_occurrences_order {A} `{EqDecision A} (l : list A) :
  StronglySorted (fun x y => (first_index x l < first_index y l)%nat)
                 (first_occurrences l).
Proof.
  induction l as [|a l IH]; cbn [first_occurrences]; constructor.
  - apply filter_keeps_order, IH.
  - apply Forall_forall. intros y Hy.
    apply list_elem_of_filter in Hy as [Hy _].
    rewrite (first_index_cons_ne a y l Hy). simpl.
    rewrite decide_True by reflexivity. lia.
Qed.

Lemma StronglySorted_keys {K V} (R : relation K) (l : list (K * V)) :
  StronglySorted R (l.*1) → StronglySorted (fun x y => R (fst x) (fst y)) l.
Proof.
  induction l as [|x l IH]; [constructor|].
  change ((x :: l).*1) with (fst x :: l.*1). intros H.
  apply StronglySorted_cons in H as [Hx Hl]. constructor; [exact (IH Hl)|].
  rewrite Forall_fmap in Hx. exact Hx.
Qed.

Lemma count_combinations_order h :
  StronglySorted
    (fun x y => (first_index (fst x) (pair_stream h)
                 < first_index (fst y) (pair_stream h))%nat)
    (count_combinations h).
Proof.
  apply (StronglySorted_keys
    (fun p q => (first_index p (pair_stream h) < first_index q (pair_stream h))%nat)).
  rewrite keys_count_combinations. apply first_occurrences_order.
Qed.

(** With distinct keys, the count listed with a key is the one looked up. *)
Lemma count_of_listed d p (c : Z) :
  NoDup (d.*1) → (p, c) ∈ d → count_of d p = c.
Proof.
  induction d as [|[k c'] d IH]; intros Hnd Hin; [inversion Hin|].
  change (((k, c') :: d).*1) with (k :: d.*1) in Hnd.
  apply NoDup_cons in Hnd as [Hk Hnd]. simpl.
  apply elem_of_cons in Hin as [Heq|Hin].
  - inversion Heq; subst. rewrite decide_True by reflexivity. reflexivity.
  - destruct (decide (k = p)) as [->|Hne]; [|exact (IH Hnd Hin)].
    exfalso. apply Hk. apply list_elem_of_fmap. exists (p, c). auto.
Qed.

(** The sort: a permutation that puts larger counts first and keeps the
    input order among equal counts. *)
Lemma insert_desc_Permutation {K} (x : K * Z) (l : list (K * Z)) :
  insert_desc x l ≡ₚ x :: l.
Proof.
  induction l as [|y l IH]; simpl; [reflexivity|].
  destruct (snd x <? snd y); [|reflexivity].
  rewrite IH. apply Permutation_swap.
Qed.

Lemma sorted_desc_Permutation {K} (l : list (K * Z)) : sorted_desc l ≡ₚ l.
Proof.
  induction l as [|x l IH]; simpl; [reflexivity|].
  rewrite insert_desc_Permutation, IH. reflexivity.
Qed.

Lemma insert_desc_ranks s (x : string * string * Z) d :
  Forall (fun y => (first_index (fst x) s < first_index (fst y) s)%nat) d →
  StronglySorted (ranks_before s) d →
  StronglySorted (ranks_before s) (insert_desc x d).
Proof.
  intros Hx Hd. induction Hd as [|y d Hd IH Hy]; simpl.
  - repeat constructor.
  - apply Forall_cons in Hx as [Hxy Hx].
    destruct (snd x <? snd y) eqn:Hlt.
    + apply Z.ltb_lt in Hlt. constructor; [exact (IH Hx)|].
      apply Forall_forall. intros z Hz.
      rewrite insert_desc_Permutation in Hz.
      apply elem_of_cons in Hz as [->|Hz].
      * left. exact Hlt.
      * rewrite Forall_forall in Hy. exact (Hy z Hz).
    + apply Z.ltb_ge in Hlt. constructor; [constructor; assumption|].
      constructor.
      * unfold ranks_before. destruct (Z.eq_dec (snd x) (snd y)); [right|left]; lia.
      * apply Forall_forall. intros z Hz.
        rewrite Forall_forall in Hy, Hx. specialize (Hy z Hz). specialize (Hx z Hz).
        unfold ranks_before in *.
        destruct (Z.eq_dec (snd x) (snd z)); [right|left]; lia.
Qed.

Lemma sorted_desc_ranks s d :
  StronglySorted
    (fun x y => (first_index (fst x) s < first_index (fst y) s)%nat) d →
  StronglySorted (ranks_before s) (sorted_desc d).
Proof.
  induction 1 as [|x d Hd IH Hx]; simpl; [constructor|].
  apply insert_desc_ranks; [|exact IH].
  apply Forall_forall. intros y Hy. rewrite sorted_desc_Permutation in Hy.
  rewrite Forall_forall in Hx. exact (Hx y Hy).
Qed.

Lemma StronglySorted_take {A} (R : relation A) (n : nat) (l : list A) :
  StronglySorted R l → StronglySorted R (take n l).
Proof.
  intros H. rewrite <- (take_drop n l) in H.
  exact (StronglySorted_app_1_l R _ _ H).
Qed.

Lemma top_combos_unfold h (k : nat) :
  top_combos h k = take k (sorted_desc (count_combinations h)).
Proof. destruct h; [destruct k|]; reflexivity. Qed.

Lemma StronglySorted_weaken {A} (R1 R2 : relation A) (l : list A) :
  (∀ x y, R1 x y → R2 x y) → StronglySorted R1 l → StronglySorted R2 l.
Proof.
  intros HR. induction 1 as [|x l Hl IH Hx]; constructor; [exact IH|].
  exact (Forall_impl _ _ _ Hx (HR x)).
Qed.

(** C2.  [top_combos history k] lists pairs with their counts so that a
    larger count comes first and, among equal counts, the pair met first by
    the loops (entries in history order, then the pair order within an
    entry) comes first.  Every listed count is the number of times the pair
    was met; the list holds [k] pairs, or all the distinct pairs when there
    are fewer than [k], and the same order decides which pairs are listed:
    every listed pair ranks before every pair left out, by a larger count
    or, at equal counts, by being met first.  The empty history gives the
    empty list, and the selections [A,B], [A,B], [A,C] give
    [(A,B,2); (A,C,1)] for [k = 2]. *)
Theorem top_combos_spec h (k : nat) :
  StronglySorted (ranks_before (pair_stream h)) (top_combos h k)
  ∧ StronglySorted (fun x y => snd y ≤ snd x) (top_combos h k)
  ∧ (∀ p (c : Z), (p, c) ∈ top_combos h k →
       p ∈ pair_stream h ∧ c = occurrences p (pair_stream h))
  ∧ length (top_combos h k)
    = min k (length (first_occurrences (pair_stream h)))
  ∧ ((length (first_occurrences (pair_stream h)) ≤ k)%nat →
       (top_combos h k).*1 ≡ₚ first_occurrences (pair_stream h))
  ∧ (∀ x y, x ∈ top_combos h k → y ∈ count_combinations h →
            y ∉ top_combos h k → ranks_before (pair_stream h) x y)
  ∧ top_combos [] k = []
  ∧ top_combos abc_history 2 = [(("A", "B"), 2); (("A", "C"), 1)]
  ∧ main_top_combos abc_history = [(("A", "B"), 2); (("A", "C"), 1)].
Proof.
  rewrite !top_combos_unfold.
  pose proof (sorted_desc_ranks _ _ (count_combinations_order h)) as Hsorted.
  pose proof (sorted_desc_Permutation (count_combinations h)) as Hperm.
  assert (StronglySorted (ranks_before (pair_stream h))
            (take k (sorted_desc (count_combinations h)))) as Htake
    by (apply StronglySorted_take, Hsorted).
  split; [exact Htake|].
  split; [|split; [|split; [|split; [|split; [|split; [|split]]]]]].
  - apply (StronglySorted_weaken (ranks_before (pair_stream h))); [|exact Htake].
    intros x y [H|[H _]]; lia.
  - intros p c Hin. apply subseteq_take in Hin. rewrite Hperm in Hin.
    assert (p ∈ first_occurrences (pair_stream h)) as Hp.
    { rewrite <- keys_count_combinations. apply list_elem_of_fmap.
      exists (p, c). auto. }
    split; [apply elem_of_first_occurrences, Hp|].
    rewrite <- count_of_count_combinations. symmetry.
    apply count_of_listed; [|exact Hin].
    rewrite keys_count_combinations. apply NoDup_first_occurrences.
  - rewrite length_take, Hperm, <- keys_count_combinations, length_fmap.
    reflexivity.
  - intros Hk. rewrite take_ge.
    + rewrite Hperm, keys_count_combinations. reflexivity.
    + rewrite Hperm, <- (length_fmap fst), keys_count_combinations. exact Hk.
  - intros x y Hx Hy Hny.
    rewrite <- Hperm, <- (take_drop k (sorted_desc (count_combinations h))) in Hy.
    apply elem_of_app in Hy as [Hy|Hy]; [contradiction|].
    rewrite <- (take_drop k (sorted_desc (count_combinations h))) in Hsorted.
    exact (StronglySorted_app_1_elem_of _ _ _ _ _ Hsorted Hx Hy).
  - destruct k; reflexivity.
  - reflexivity.
  - reflexivity.
Qed.

End PairFrequency.

(** ** The properties at concrete worlds *)

Lemma analyze_nutrition_spec_witness :
  ∃ n : nutrition,
    analyze_nutrition ["Eggs"; "Rice"; "Eggs"] initial_world
      = (Return n, initial_world)
    ∧ calories n = sum_over (fun i => 10 * str_len i) ["Eggs"; "Rice"; "Eggs"]
    ∧ protein n
      = 15 * count_members ["Eggs"; "Chicken"; "Tofu"; "Beef"; "Fish"; "Lentils"]
                           ["Eggs"; "Rice"; "Eggs"]
    ∧ carbs n
      = 20 * count_members ["Rice"; "Pasta"; "Flour"; "Oil"; "Salt"; "Pepper"]
                           ["Eggs"; "Rice"; "Eggs"]
    ∧ 0 ≤ calories n ∧ 0 ≤ protein n ∧ 0 ≤ carbs n
    ∧ (["Eggs"; "Rice"; "Eggs"] = [] → n = Nutrition 0 0 0)
    ∧ (["Eggs"; "Rice"; "Eggs"] = ["Eggs"] → calories n = 40).
Proof.
  apply (analyze_nutrition_spec initial_world ["Eggs"; "Rice"; "Eggs"]
           (Category ["Eggs"; "Chicken"; "Tofu"; "Beef"; "Fish"; "Lentils"]
                     ["high-protein"])
           (Category ["Rice"; "Pasta"; "Flour"; "Oil"; "Salt"; "Pepper"]
                     ["staples"])); reflexivity.
Defined.

Lemma analyze_nutrition_counts_repeats_witness :
  ∃ n n' : nutrition,
    analyze_nutrition ["Eggs"; "Rice"; "Eggs"] initial_world
      = (Return n, initial_world)
    ∧ analyze_nutrition (filter (fun i => i ≠ "Eggs") ["Eggs"; "Rice"; "Eggs"])
        initial_world = (Return n', initial_world)
    ∧ calories n
      = 10 * str_len "Eggs" * occurrences "Eggs" ["Eggs"; "Rice"; "Eggs"]
        + calories n'
    ∧ ("Eggs" ∈ ["Eggs"; "Chicken"; "Tofu"; "Beef"; "Fish"; "Lentils"] →
       protein n = 15 * occurrences "Eggs" ["Eggs"; "Rice"; "Eggs"] + protein n')
    ∧ ("Eggs" ∈ ["Rice"; "Pasta"; "Flour"; "Oil"; "Salt"; "Pepper"] →
       carbs n = 20 * occurrences "Eggs" ["Eggs"; "Rice"; "Eggs"] + carbs n').
Proof.
  apply (analyze_nutrition_counts_repeats initial_world ["Eggs"; "Rice"; "Eggs"]
           "Eggs"
           (Category ["Eggs"; "Chicken"; "Tofu"; "Beef"; "Fish"; "Lentils"]
                     ["high-protein"])
           (Category ["Rice"; "Pasta"; "Flour"; "Oil"; "Salt"; "Pepper"]
                     ["staples"])); reflexivity.
Defined.

Lemma distinct_members_lists (s : pyset) (x : string) :
  x ∈ distinct_members s ↔ x ∈ s.
Proof. apply elem_of_remove_dups. Qed.

Lemma get_dietary_tags_spec_witness :
  ∃ r : list string,
    get_dietary_tags distinct_members cooking_world = (Return r, cooking_world)
    ∧ (∀ t, t ∈ r ↔
         ∃ i c, i ∈ selected_ingredients cooking_world
                ∧ c ∈ values (INGREDIENT_CATEGORIES cooking_world)
                ∧ i ∈ items c ∧ t ∈ tags c)
    ∧ list_to_set r ⊆ catalog_tags (INGREDIENT_CATEGORIES cooking_world)
    ∧ (selected_ingredients cooking_world = [] → r = [])
    ∧ ((∀ i c, i ∈ selected_ingredients cooking_world →
               c ∈ values (INGREDIENT_CATEGORIES cooking_world) → i ∉ items c) →
       r = []).
Proof.
  exact (get_dietary_tags_spec distinct_members distinct_members_lists
           cooking_world).
Defined.

Lemma get_cooking_methods_spec_witness :
  ∃ r : list string,
    get_cooking_methods distinct_members cooking_world = (Return r, cooking_world)
    ∧ list_to_set r
      = ⋃ (methods_of (INGREDIENT_PROFILES cooking_world)
             <$> selected_ingredients cooking_world)
    ∧ (∀ i, INGREDIENT_PROFILES cooking_world !! i = None →
            methods_of (INGREDIENT_PROFILES cooking_world) i = ∅)
    ∧ (∀ i p, INGREDIENT_PROFILES cooking_world !! i = Some p →
              methods_of (INGREDIENT_PROFILES cooking_world) i
              = list_to_set (cooking_methods p)).
Proof.
  exact (get_cooking_methods_spec distinct_members distinct_members_lists
           cooking_world).
Defined.

Lemma like_clicked_spec_witness :
  like_clicked stored_dumps initial_world = (Raise IndexError, initial_world)
  ∧ ∃ w1 w2,
      like_clicked stored_dumps one_recipe_world = (Return tt, w1)
      ∧ (likes <$> last (history w1)) = Some 1
      ∧ like_clicked stored_dumps w1 = (Return tt, w2)
      ∧ (likes <$> last (history w2)) = Some 2.
Proof.
  split.
  - apply (like_clicked_spec stored_dumps initial_world). reflexivity.
  - destruct (proj2 (like_clicked_spec stored_dumps one_recipe_world) []
                (Entry "a recipe" "2024-05-01T12:00:00" ["Tomato"; "Basil"] 0
                   ["vegan"; "vegetarian"; "healthy"; "flavor-enhancer"])
                eq_refl)
      as (w1 & w2 & H1 & Hh1 & _ & _ & _ & H2 & Hh2 & _).
    exists w1, w2. rewrite Hh1, Hh2. repeat split; assumption.
Defined.

Lemma load_history_spec_witness :
  (load_history stored_loads initial_world
     = (Return tt, set_history [] initial_world)
   ∧ history (set_history [] initial_world) = [])
  ∧ load_history stored_loads corrupt_world
    = (Raise JSONDecodeError, corrupt_world)
  ∧ (load_history stored_loads wrong_shape_world
       = (Untyped (JObject []), wrong_shape_world)
     ∧ ∀ e : exn, fst (load_history stored_loads wrong_shape_world) ≠ Raise e)
  ∧ (load_history stored_loads (set_history [] saved_world)
       = (Return tt, set_history (history one_recipe_world)
                                 (set_history [] saved_world))
     ∧ files (set_history (history one_recipe_world) (set_history [] saved_world))
       = files (set_history [] saved_world)).
Proof.
  split; [|split; [|split]].
  - apply (load_history_spec stored_loads initial_world). reflexivity.
  - apply (proj1 (proj2 (load_history_spec stored_loads corrupt_world))
             (Unparsable "[{")); reflexivity.
  - apply (proj1 (proj2 (proj2 (load_history_spec stored_loads wrong_shape_world)))
             (Holding (JObject [])) (JObject [])); reflexivity.
  - apply (proj2 (proj2 (proj2 (load_history_spec stored_loads
                                  (set_history [] saved_world))))
             (stored_dumps (history one_recipe_world))
             (history one_recipe_world)); reflexivity.
Defined.

(** C5 (as stated): a history file that is valid JSON of another shape, here
    the text [{}], is loaded without any exception; the file is left as it
    was.  So not every store that fails to hold a list of entries makes
    [load_history] raise. *)
Lemma load_history_accepts_wrong_shape :
  files wrong_shape_world !! history_file = Some (Holding (JObject []))
  ∧ stored_loads (Holding (JObject [])) = Some (JObject [])
  ∧ as_history (JObject []) = None
  ∧ load_history stored_loads wrong_shape_world
    = (Untyped (JObject []), wrong_shape_world)
  ∧ ¬ (∀ (w : world stored) (d : stored),
         files w !! history_file = Some d →
         (∀ h : list entry, stored_loads d ≠ Some (to_json h)) →
         ∃ e : exn, fst (load_history stored_loads w) = Raise e).
Proof.
  split; [reflexivity|]. split; [reflexivity|]. split; [reflexivity|].
  split; [reflexivity|].
  intros H.
  destruct (H wrong_shape_world (Holding (JObject [])) eq_refl) as [e He].
  - intros h. discriminate.
  - vm_compute in He. discriminate He.
Qed.

Lemma stored_round_trip (h : list entry) :
  stored_loads (stored_dumps h) = Some (to_json h).
Proof. reflexivity. Qed.

Lemma add_recipe_then_load_witness :
  ∃ (tgs : list string) (w1 : world stored),
    get_dietary_tags distinct_members cooking_world = (Return tgs, cooking_world)
    ∧ add_recipe stored_dumps distinct_members "Frittata" cooking_world
      = (Return tt, w1)
    ∧ history w1 =
        history cooking_world
        ++ [Entry "Frittata" (now cooking_world)
                  (selected_ingredients cooking_world) 0 tgs]
    ∧ files w1 = <[history_file := stored_dumps (history w1)]> (files cooking_world)
    ∧ ∀ stale : list entry, ∃ w2,
        RecipeManager stored_loads (set_history stale w1) = (Return tt, w2)
        ∧ history w2 = history w1
        ∧ last (history w2)
          = Some (Entry "Frittata" (now cooking_world)
                        (selected_ingredients cooking_world) 0 tgs)
        ∧ take (length (history cooking_world)) (history w2)
          = history cooking_world.
Proof.
  exact (add_recipe_then_load stored_dumps stored_loads distinct_members
           stored_round_trip cooking_world "Frittata").
Defined.

Lemma pair_counted_per_occurrence_witness :
  "A" ≠ "B"
  ∧ count_of (count_combinations abc_history) ("A", "B")
    + count_of (count_combinations abc_history) ("B", "A")
    = entries_with_both "A" "B" abc_history.
Proof.
  split; [discriminate|].
  apply (pair_counted_per_occurrence abc_history "A" "B"); [discriminate|].
  apply Forall_forall.
  apply (bool_decide_unpack (Forall (fun e => NoDup (ingredients e)) abc_history)).
  vm_compute. exact I.
Defined.

Lemma top_combos_spec_witness :
  (length (first_occurrences (pair_stream abc_history)) ≤ 3)%nat
  ∧ (top_combos abc_history 3).*1 ≡ₚ first_occurrences (pair_stream abc_history)
  ∧ ((("A", "B"), 2) ∈ top_combos abc_history 3 →
     ("A", "B") ∈ pair_stream abc_history
     ∧ 2 = occurrences ("A", "B") (pair_stream abc_history))
  ∧ top_combos tie_history 3
    = [(("E", "F"), 3); (("C", "D"), 2); (("A", "B"), 1)]
  ∧ (("A", "B"), 1) ∈ top_combos tie_history 3
  ∧ (("G", "H"), 1) ∈ count_combinations tie_history
  ∧ ((("G", "H"), 1) ∉ top_combos tie_history 3)
  ∧ ranks_before (pair_stream tie_history) (("A", "B"), 1) (("G", "H"), 1)
  ∧ (first_index ("A", "B") (pair_stream tie_history)
     < first_index ("G", "H") (pair_stream tie_history))%nat.
Proof.
  destruct (top_combos_spec abc_history 3) as (_ & _ & Hcount & _ & Hall & _).
  destruct (top_combos_spec tie_history 3) as (_ & _ & _ & _ & _ & Hcut & _).
  assert ((("A", "B"), 1) ∈ top_combos tie_history 3) as Hx.
  { apply (bool_decide_unpack _). vm_compute. exact I. }
  assert ((("G", "H"), 1) ∈ count_combinations tie_history) as Hy.
  { apply (bool_decide_unpack _). vm_compute. exact I. }
  assert ((("G", "H"), 1) ∉ top_combos tie_history 3) as Hny.
  { apply (bool_decide_unpack _). vm_compute. exact I. }
  split; [vm_compute; lia|]. split; [apply Hall; vm_compute; lia|].
  split; [apply Hcount|]. split; [reflexivity|].
  split; [exact Hx|]. split; [exact Hy|]. split; [exact Hny|].
  pose proof (Hcut _ _ Hx Hy Hny) as Hrank.
  split; [exact Hrank|].
  destruct Hrank as [Hlt|[_ Hidx]]; [|exact Hidx].
  vm_compute in Hlt. discriminate Hlt.
Defined.

Lemma derivations_are_pure_witness :
  fst (get_dietary_tags distinct_members one_recipe_world)
    = fst (get_dietary_tags distinct_members cooking_world)
  ∧ fst (get_cooking_methods distinct_members one_recipe_world)
    = fst (get_cooking_methods distinct_members cooking_world)
  ∧ fst (analyze_nutrition ["Eggs"] one_recipe_world)
    = fst (analyze_nutrition ["Eggs"] cooking_world).
Proof.
  destruct (derivations_are_pure distinct_members cooking_world ["Eggs"])
    as ((_ & _ & Ht) & (_ & _ & Hm) & (_ & _ & Hn)).
  split; [|split].
  - apply Ht; reflexivity.
  - apply Hm; reflexivity.
  - apply Hn; reflexivity.
Defined.

(** ** Further properties of the history store *)

Section StoreProperties.

Context {document : Type}.
Variable json_dumps : list entry → document.
Variable json_loads : document → option json.
Variable set_iter : pyset → list string.

Implicit Types (w : world document) (h : list entry) (e : entry).

Ltac run_store :=
  repeat (unfold load_history, save_history, get_dietary_tags, add_recipe,
            RecipeManager, like_clicked, mbind, Py_bind, mret, Py_ret, gets,
            modify, lift, raise, untyped; cbn beta iota).

Lemma add_recipe_run w (recipe_data : string) :
  ∃ tgs : list string,
    add_recipe json_dumps set_iter recipe_data w =
      (Return tt,
       set_files
         (<[history_file :=
              json_dumps (history w ++
                [Entry recipe_data (now w) (selected_ingredients w) 0 tgs])]>
            (files w))
         (set_history
            (history w ++ [Entry recipe_data (now w) (selected_ingredients w) 0 tgs])
            w)).
Proof. eexists. run_store. reflexivity. Qed.

Lemma like_clicked_run w :
  like_clicked json_dumps w =
    match last (history w) with
    | None => (Raise IndexError, w)
    | Some e =>
        (Return tt,
         set_files
           (<[history_file := json_dumps (removelast (history w) ++ [add_like e])]>
              (files w))
           (set_history (removelast (history w) ++ [add_like e]) w))
    end.
Proof. run_store. destruct (last (history w)); reflexivity. Qed.

Lemma load_history_run w :
  load_history json_loads w =
    match files w !! history_file with
    | Some d =>
        match json_loads d with
        | Some v =>
            match as_history v with
            | Some h => (Return tt, set_history h w)
            | None => (Untyped v, w)
            end
        | None => (Raise JSONDecodeError, w)
        end
    | None => (Return tt, set_history [] w)
    end.
Proof.
  run_store. destruct (files w !! history_file) as [d|]; [|reflexivity].
  destruct (json_loads d) as [v|]; [|reflexivity].
  destruct (as_history v); reflexivity.
Qed.

(** X2.  Whatever they return or raise, [save_history], [load_history],
    [add_recipe] and the Like action change nothing but the history in
    memory and the history file: the catalog, the selection, the clock and
    every other file stay as they were; [load_history] changes no file at
    all. *)
Theorem store_operations_footprint w (recipe_data : string) :
  same_outside_store w (snd (save_history json_dumps w))
  ∧ same_outside_store w (snd (load_history json_loads w))
  ∧ files (snd (load_history json_loads w)) = files w
  ∧ same_outside_store w (snd (add_recipe json_dumps set_iter recipe_data w))
  ∧ same_outside_store w (snd (like_clicked json_dumps w)).
Proof.
  assert (∀ fs hh, same_outside_store w
            (set_files (<[history_file := fs]> (files w)) (set_history hh w))) as Hset.
  { intros fs hh. repeat split; try reflexivity.
    intros f Hf. cbn [files set_files]. apply lookup_insert_ne. congruence. }
  assert (same_outside_store w w) as Hrefl by (repeat split; reflexivity).
  split; [|split; [|split; [|split]]].
  - destruct w. apply (Hset _ _).
  - rewrite load_history_run. destruct (files w !! history_file) as [d|].
    + destruct (json_loads d) as [v|]; [|exact Hrefl].
      destruct (as_history v); [|exact Hrefl]. repeat split; reflexivity.
    + repeat split; reflexivity.
  - rewrite load_history_run. destruct (files w !! history_file) as [d|].
    + destruct (json_loads d) as [v|]; [|reflexivity].
      destruct (as_history v); reflexivity.
    + reflexivity.
  - destruct (add_recipe_run w recipe_data) as [tgs ->]. apply Hset.
  - rewrite like_clicked_run. destruct (last (history w)); [apply Hset|exact Hrefl].
Qed.

(** X3.  Liking [n] times in a row adds exactly [n] to the like counter of
    the last entry and changes nothing else in the history. *)
Theorem like_clicked_n_times w h e (n : nat) :
  history w = h ++ [e] →
  history (Nat.iter n (fun w => snd (like_clicked json_dumps w)) w)
    = h ++ [with_more_likes (Z.of_nat n) e].
Proof.
  intros Hh. induction n as [|n IH].
  - simpl. rewrite Hh. unfold with_more_likes. rewrite Z.add_0_r.
    destruct e; reflexivity.
  - rewrite Nat.iter_succ. cbv beta.
    rewrite like_clicked_run, IH, last_snoc, removelast_last.
    cbn [snd history set_files set_history]. unfold add_like, with_more_likes.
    cbn [recipe timestamp ingredients likes dietary_tags].
    do 3 f_equal. lia.
Qed.

(** X4.  A successful [add_recipe], Like or [save_history] never removes or
    rewrites an entry: the history is at least as long as before and each
    earlier entry is still at its index, the same up to its likes, which did
    not decrease. *)
Theorem store_mutations_keep_entries w w1 (recipe_data : string) :
  save_history json_dumps w = (Return tt, w1)
  ∨ add_recipe json_dumps set_iter recipe_data w = (Return tt, w1)
  ∨ like_clicked json_dumps w = (Return tt, w1) →
  (length (history w) ≤ length (history w1))%nat
  ∧ ∀ (i : nat) e, history w !! i = Some e →
      ∃ e', history w1 !! i = Some e' ∧ same_but_likes e e'.
Proof.
  assert (∀ e, same_but_likes e e) as Hrefl.
  { intros e. repeat split; reflexivity || lia. }
  intros [H|[H|H]].
  - inversion H; subst w1. cbn [history set_files]. split; [lia|]. eauto.
  - destruct (add_recipe_run w recipe_data) as [tgs Hrun].
    rewrite Hrun in H. inversion H; subst w1. cbn [history set_files set_history].
    rewrite length_app. split; [lia|]. intros i e Hi. exists e. split; [|apply Hrefl].
    apply lookup_app_l_Some. exact Hi.
  - rewrite like_clicked_run in H.
    destruct (last (history w)) as [e0|] eqn:Hlast; [|discriminate].
    apply last_Some in Hlast as [h Hh]. inversion H; subst w1.
    cbn [history set_files set_history]. rewrite Hh, removelast_last, !length_app.
    split; [simpl; lia|]. intros i e Hi.
    destruct (decide (i < length h)%nat) as [Hlt|Hge].
    + exists e. split; [|apply Hrefl].
      rewrite lookup_app_l in Hi by exact Hlt. rewrite lookup_app_l by exact Hlt.
      exact Hi.
    + assert (i = length h) as ->.
      { apply lookup_lt_Some in Hi. rewrite length_app in Hi. simpl in Hi. lia. }
      rewrite list_lookup_middle in Hi by reflexivity. inversion Hi; subst e0.
      exists (add_like e). rewrite list_lookup_middle by reflexivity.
      split; [reflexivity|]. repeat split; simpl; lia.
Qed.

Hypothesis json_round_trip :
  ∀ h : list entry, json_loads (json_dumps h) = Some (to_json h).

(** X1.  After a successful [save_history], [add_recipe] or Like, what is
    stored is what is in memory: a manager created afterwards, whatever its
    memory held, loads exactly the history the operation left. *)
Theorem store_is_durable w w1 (recipe_data : string) (stale : list entry) :
  save_history json_dumps w = (Return tt, w1)
  ∨ add_recipe json_dumps set_iter recipe_data w = (Return tt, w1)
  ∨ like_clicked json_dumps w = (Return tt, w1) →
  RecipeManager json_loads (set_history stale w1) = (Return tt, w1).
Proof.
  assert (∀ hh w0,
    RecipeManager json_loads
      (set_history stale
         (set_files (<[history_file := json_dumps hh]> (files w0)) (set_history hh w0)))
    = (Return tt,
       set_files (<[history_file := json_dumps hh]> (files w0)) (set_history hh w0)))
    as Hload.
  { intros hh w0. unfold RecipeManager. rewrite load_history_run.
    cbn [files set_files set_history].
    rewrite lookup_insert_eq, json_round_trip, as_history_to_json.
    reflexivity. }
  intros [H|[H|H]].
  - inversion H; subst w1. destruct w. apply (Hload _ (World _ _ _ _ _ _)).
  - destruct (add_recipe_run w recipe_data) as [tgs Hrun].
    rewrite Hrun in H. inversion H; subst w1. apply Hload.
  - rewrite like_clicked_run in H. destruct (last (history w)); [|discriminate].
    inversion H; subst w1. apply Hload.
Qed.

End StoreProperties.

(** ** Further properties of the derivations *)

Section DerivationProperties.

Context {document : Type}.
Variable set_iter : pyset → list string.

Implicit Types (w : world document) (S : list string).

Lemma getitem_raise {V} (d : pydict V) (k : string) (e : exn) :
  getitem d k = Raise e → e = KeyError k.
Proof.
  induction d as [|[k' v] d IH]; simpl.
  - intros H. inversion H. reflexivity.
  - destruct (String.eqb k' k); [discriminate|exact IH].
Qed.

Lemma getitem_missing {V} (d : pydict V) (k : string) :
  (∀ v, getitem d k ≠ Return v) → getitem d k = Raise (KeyError k).
Proof.
  intros Hno. destruct (getitem d k) as [v|e|v] eqn:Hg.
  - destruct (Hno v). reflexivity.
  - rewrite (getitem_raise d k e Hg). reflexivity.
  - destruct (getitem_typed _ _ _ Hg).
Qed.

(** X8.  [analyze_nutrition] looks the two categories up once per selected
    name: the empty selection gives all zeros whatever the catalog holds,
    while a non-empty selection raises [KeyError] for "Proteins" when the
    catalog lacks that category, and for "Pantry" when it has Proteins but
    lacks Pantry; the world is unchanged in each case. *)
Theorem analyze_nutrition_edge_cases w S :
  analyze_nutrition [] w = (Return (Nutrition 0 0 0), w)
  ∧ (S ≠ [] →
     (∀ c, getitem (INGREDIENT_CATEGORIES w) "Proteins" ≠ Return c) →
     analyze_nutrition S w = (Raise (KeyError "Proteins"), w))
  ∧ (S ≠ [] →
     ∀ prot : category,
       getitem (INGREDIENT_CATEGORIES w) "Proteins" = Return prot →
       (∀ c, getitem (INGREDIENT_CATEGORIES w) "Pantry" ≠ Return c) →
       analyze_nutrition S w = (Raise (KeyError "Pantry"), w)).
Proof.
  split; [reflexivity|]. split.
  - intros HS Hno. apply getitem_missing in Hno.
    unfold analyze_nutrition, mbind, Py_bind.
    rewrite (filterM_in_category_raise _ _ _ S Hno).
    destruct S; [congruence|reflexivity].
  - intros HS prot Hprot Hno. apply getitem_missing in Hno.
    unfold analyze_nutrition, mbind, Py_bind.
    rewrite (filterM_in_category _ _ _ S Hprot).
    rewrite (filterM_in_category_raise _ _ _ S Hno).
    destruct S; [congruence|reflexivity].
Qed.

Lemma count_members_app (xs S1 S2 : list string) :
  count_members xs (S1 ++ S2) = count_members xs S1 + count_members xs S2.
Proof. induction S1 as [|i S1 IH]; simpl; lia. Qed.

Lemma sum_over_app {A} (f : A → Z) (l1 l2 : list A) :
  sum_over f (l1 ++ l2) = sum_over f l1 + sum_over f l2.
Proof. induction l1 as [|x l1 IH]; simpl; lia. Qed.

Lemma count_members_Permutation (xs S S' : list string) :
  S ≡ₚ S' → count_members xs S = count_members xs S'.
Proof. induction 1; simpl; lia. Qed.

Lemma sum_over_Permutation {A} (f : A → Z) (l l' : list A) :
  l ≡ₚ l' → sum_over f l = sum_over f l'.
Proof. induction 1; simpl; lia. Qed.

(** X9.  In a world whose catalog has the Proteins and Pantry categories,
    the three figures of a concatenation are the sums of the figures of its
    parts, and the order of the selection does not matter. *)
Theorem analyze_nutrition_additive w (S1 S2 : list string) (prot pant : category) :
  getitem (INGREDIENT_CATEGORIES w) "Proteins" = Return prot →
  getitem (INGREDIENT_CATEGORIES w) "Pantry" = Return pant →
  ∃ n1 n2 : nutrition,
    analyze_nutrition S1 w = (Return n1, w)
    ∧ analyze_nutrition S2 w = (Return n2, w)
    ∧ analyze_nutrition (S1 ++ S2) w
      = (Return (Nutrition (calories n1 + calories n2)
                           (protein n1 + protein n2)
                           (carbs n1 + carbs n2)), w)
    ∧ ∀ S', S' ≡ₚ S1 → analyze_nutrition S' w = (Return n1, w).
Proof.
  intros Hprot Hpant. do 2 eexists.
  rewrite !(analyze_nutrition_returns _ _ _ _ Hprot Hpant).
  split; [reflexivity|]. split; [reflexivity|]. split.
  - cbn [calories protein carbs].
    rewrite sum_over_app, !count_members_app. do 2 f_equal. f_equal; lia.
  - intros S' HS'. rewrite (analyze_nutrition_returns _ _ _ _ Hprot Hpant).
    rewrite (sum_over_Permutation _ _ _ HS').
    rewrite !(count_members_Permutation _ _ _ HS'). reflexivity.
Qed.

Hypothesis set_iter_members : ∀ (s : pyset) (x : string), x ∈ set_iter s ↔ x ∈ s.

Lemma get_dietary_tags_run w :
  ∃ r : list string,
    get_dietary_tags set_iter w = (Return r, w)
    ∧ ∀ t, t ∈ r ↔
        ∃ i c, i ∈ selected_ingredients w
               ∧ c ∈ values (INGREDIENT_CATEGORIES w)
               ∧ i ∈ items c ∧ t ∈ tags c.
Proof.
  eexists. split; [reflexivity|]. intros t.
  rewrite set_iter_members, tags_outer_loop. unfold set_new.
  split; [|auto]. intros [H|H]; [inversion H|exact H].
Qed.

Lemma get_cooking_methods_run w :
  ∃ r : list string,
    get_cooking_methods set_iter w = (Return r, w)
    ∧ ∀ m, m ∈ r ↔
        ∃ i p, i ∈ selected_ingredients w
               ∧ INGREDIENT_PROFILES w !! i = Some p
               ∧ m ∈ cooking_methods p.
Proof.
  eexists. split; [reflexivity|]. intros m.
  rewrite set_iter_members.
  rewrite <- (elem_of_list_to_set (C := gset string)).
  fold (members (foldl (fun methods ingredient =>
    match INGREDIENT_PROFILES w !! ingredient with
    | Some p => set_update methods (cooking_methods p)
    | None => methods
    end) set_new (selected_ingredients w))).
  rewrite methods_loop. unfold members, set_new.
  rewrite elem_of_union, elem_of_list_to_set, elem_of_union_list. split.
  - intros [H|(X & HX & Hm)]; [inversion H|].
    apply list_elem_of_fmap in HX as (i & -> & Hi). unfold methods_of in Hm.
    destruct (INGREDIENT_PROFILES w !! i) as [p|] eqn:Hp.
    + exists i, p. rewrite elem_of_list_to_set in Hm. auto.
    + apply not_elem_of_empty in Hm. contradiction.
  - intros (i & p & Hi & Hp & Hm). right.
    exists (methods_of (INGREDIENT_PROFILES w) i). split.
    + apply list_elem_of_fmap. exists i. auto.
    + unfold methods_of. rewrite Hp. apply elem_of_list_to_set. exact Hm.
Qed.

(** X5.  The dietary tags depend only on which names are selected, not on
    their order or repetition, and selecting more never loses a tag: with
    the same catalog, if every name selected in [w] is selected in [w'],
    every tag of [w] is a tag of [w']. *)
Theorem get_dietary_tags_monotone w w' :
  INGREDIENT_CATEGORIES w' = INGREDIENT_CATEGORIES w →
  (∀ i, i ∈ selected_ingredients w → i ∈ selected_ingredients w') →
  ∃ r r' : list string,
    get_dietary_tags set_iter w = (Return r, w)
    ∧ get_dietary_tags set_iter w' = (Return r', w')
    ∧ (∀ t, t ∈ r → t ∈ r')
    ∧ ((∀ i, i ∈ selected_ingredients w' → i ∈ selected_ingredients w) →
       ∀ t, t ∈ r ↔ t ∈ r').
Proof.
  intros Hc Hsub.
  destruct (get_dietary_tags_run w) as (r & Hr & Hchar).
  destruct (get_dietary_tags_run w') as (r' & Hr' & Hchar').
  exists r, r'. split; [exact Hr|]. split; [exact Hr'|].
  assert (∀ t, t ∈ r → t ∈ r') as Hmono.
  { intros t Ht. apply Hchar in Ht as (i & c & Hi & Hcc & H).
    apply Hchar'. exists i, c. rewrite Hc. auto. }
  split; [exact Hmono|]. intros Hsup t. split; [apply Hmono|].
  intros Ht. apply Hchar' in Ht as (i & c & Hi & Hcc & H).
  apply Hchar. exists i, c. rewrite <- Hc. auto.
Qed.

(** X6.  The suggested cooking methods depend only on which names are
    selected, and selecting more never loses a method. *)
Theorem get_cooking_methods_monotone w w' :
  INGREDIENT_PROFILES w' = INGREDIENT_PROFILES w →
  (∀ i, i ∈ selected_ingredients w → i ∈ selected_ingredients w') →
  ∃ r r' : list string,
    get_cooking_methods set_iter w = (Return r, w)
    ∧ get_cooking_methods set_iter w' = (Return r', w')
    ∧ (∀ m, m ∈ r → m ∈ r')
    ∧ ((∀ i, i ∈ selected_ingredients w' → i ∈ selected_ingredients w) →
       ∀ m, m ∈ r ↔ m ∈ r').
Proof.
  intros Hc Hsub.
  destruct (get_cooking_methods_run w) as (r & Hr & Hchar).
  destruct (get_cooking_methods_run w') as (r' & Hr' & Hchar').
  exists r, r'. split; [exact Hr|]. split; [exact Hr'|].
  assert (∀ m, m ∈ r → m ∈ r') as Hmono.
  { intros m Hm. apply Hchar in Hm as (i & p & Hi & Hp & H).
    apply Hchar'. exists i, p. rewrite Hc. auto. }
  split; [exact Hmono|]. intros Hsup m. split; [apply Hmono|].
  intros Hm. apply Hchar' in Hm as (i & p & Hi & Hp & H).
  apply Hchar. exists i, p. rewrite <- Hc. auto.
Qed.

(** X7.  With the catalog of the source, a tag is attached as soon as one
    selected name belongs to a category carrying it, whatever else is
    selected: "vegan" and "healthy" with any vegetable, "vegetarian" with
    any vegetable or dairy item, "high-protein" with any protein, "staples"
    with any pantry item, "flavor-enhancer" with any herb; there is no other
    tag. *)
Theorem get_dietary_tags_of_source_catalog w :
  INGREDIENT_CATEGORIES w = INGREDIENT_CATEGORIES_literal →
  ∃ r : list string,
    get_dietary_tags set_iter w = (Return r, w)
    ∧ ∀ t, t ∈ r ↔
        (t ∈ ["vegan"; "healthy"]
         ∧ selects (selected_ingredients w)
                   (items_of INGREDIENT_CATEGORIES_literal "Vegetables"))
        ∨ (t = "vegetarian"
           ∧ (selects (selected_ingredients w)
                      (items_of INGREDIENT_CATEGORIES_literal "Vegetables")
              ∨ selects (selected_ingredients w)
                        (items_of INGREDIENT_CATEGORIES_literal "Dairy")))
        ∨ (t = "high-protein"
           ∧ selects (selected_ingredients w)
                     (items_of INGREDIENT_CATEGORIES_literal "Proteins"))
        ∨ (t = "staples"
           ∧ selects (selected_ingredients w)
                     (items_of INGREDIENT_CATEGORIES_literal "Pantry"))
        ∨ (t = "flavor-enhancer"
           ∧ selects (selected_ingredients w)
                     (items_of INGREDIENT_CATEGORIES_literal "Herbs")).
Proof.
  intros Hcat. destruct (get_dietary_tags_run w) as (r & Hr & Hchar).
  exists r. split; [exact Hr|]. intros t. rewrite Hchar, Hcat. clear Hchar Hr.
  unfold selects. split.
  - intros (i & c & Hi & Hc & Hic & Ht).
    cbn [values map INGREDIENT_CATEGORIES_literal snd] in Hc.
    repeat (apply elem_of_cons in Hc as [->|Hc]); [| | | | |inversion Hc];
      cbn [tags items] in Ht, Hic;
      repeat (apply elem_of_cons in Ht as [->|Ht]); try (inversion Ht; fail).
    + left. split; [left|]. exists i. auto.
    + right. left. split; [reflexivity|]. left. exists i. auto.
    + left. split; [right; left|]. exists i. auto.
    + right. right. left. split; [reflexivity|]. exists i. auto.
    + right. left. split; [reflexivity|]. right. exists i. auto.
    + right. right. right. left. split; [reflexivity|]. exists i. auto.
    + right. right. right. right. split; [reflexivity|]. exists i. auto.
  - intros [[Ht (i & Hi & Hic)]
           |[[-> [(i & Hi & Hic)|(i & Hi & Hic)]]
            |[[-> (i & Hi & Hic)]
             |[[-> (i & Hi & Hic)]
              |[-> (i & Hi & Hic)]]]]];
      exists i;
      [ exists (Category (items_of INGREDIENT_CATEGORIES_literal "Vegetables")
                         ["vegan"; "vegetarian"; "healthy"])
      | exists (Category (items_of INGREDIENT_CATEGORIES_literal "Vegetables")
                         ["vegan"; "vegetarian"; "healthy"])
      | exists (Category (items_of INGREDIENT_CATEGORIES_literal "Dairy")
                         ["vegetarian"])
      | exists (Category (items_of INGREDIENT_CATEGORIES_literal "Proteins")
                         ["high-protein"])
      | exists (Category (items_of INGREDIENT_CATEGORIES_literal "Pantry")
                         ["staples"])
      | exists (Category (items_of INGREDIENT_CATEGORIES_literal "Herbs")
                         ["flavor-enhancer"]) ];
      (split; [exact Hi|]); (split; [|split; [exact Hic|]]);
      cbn [values map INGREDIENT_CATEGORIES_literal snd items_of getitem
           String.eqb Ascii.eqb Bool.eqb items tags].
    + left.
    + repeat (apply elem_of_cons in Ht as [->|Ht]); [left|right; right; left|inversion Ht].
    + left.
    + right; left.
    + do 2 right; left.
    + left.
    + right; left.
    + left.
    + do 3 right; left.
    + left.
    + do 4 right; left.
    + left.
Qed.

End DerivationProperties.

(** ** Further properties of the pair frequencies *)

Section PairFrequencyMore.

Implicit Types (d : list (string * string * Z)) (p : string * string)
  (h : list entry) (sel : list string).

Lemma elem_of_entry_pairs (a b : string) sel :
  (a, b) ∈ entry_pairs sel ↔ a ∈ sel ∧ b ∈ sel ∧ str_lt a b = true.
Proof.
  unfold entry_pairs. rewrite list_elem_of_bind. split.
  - intros (i1 & H & Hi1). apply list_elem_of_bind in H as (i2 & H & Hi2).
    destruct (str_lt i1 i2) eqn:Hlt; [|inversion H].
    apply list_elem_of_singleton in H. inversion H; subst. auto.
  - intros (Ha & Hb & Hlt). exists a. split; [|exact Ha].
    apply list_elem_of_bind. exists b. split; [|exact Hb].
    rewrite Hlt. left.
Qed.

Lemma elem_of_pair_stream (a b : string) h :
  (a, b) ∈ pair_stream h ↔
  ∃ e, e ∈ h ∧ a ∈ ingredients e ∧ b ∈ ingredients e ∧ str_lt a b = true.
Proof.
  unfold pair_stream. rewrite list_elem_of_bind. split.
  - intros (e & H & He). apply elem_of_entry_pairs in H. exists e. tauto.
  - intros (e & He & H). exists e. split; [|exact He].
    apply elem_of_entry_pairs. exact H.
Qed.

Lemma str_lt_irrefl (a : string) : str_lt a a = false.
Proof.
  unfold str_lt, String.ltb.
  pose proof (String.compare_antisym a a) as H.
  destruct (String.compare a a); try reflexivity. discriminate H.
Qed.

Lemma occurrences_pos {A} `{EqDecision A} (x : A) (l : list A) :
  x ∈ l → 1 ≤ occurrences x l.
Proof.
  induction l as [|y l IH]; intros Hx; [inversion Hx|]. simpl.
  pose proof (occurrences_nonneg x l).
  destruct (decide (x = y)) as [->|Hne]; [lia|].
  apply elem_of_cons in Hx as [Hx|Hx]; [contradiction|].
  specialize (IH Hx). lia.
Qed.

(** X10.  Every key of [combinations] is a pair of two different names, the
    smaller one first, that some entry selected together; its count is at
    least one, and no pair is listed twice. *)
Theorem combinations_keys_canonical h (a b : string) (c : Z) :
  (a, b, c) ∈ count_combinations h →
  str_lt a b = true ∧ a ≠ b ∧ 1 ≤ c
  ∧ (∃ e, e ∈ h ∧ a ∈ ingredients e ∧ b ∈ ingredients e)
  ∧ NoDup (count_combinations h).*1.
Proof.
  intros Hin.
  assert (NoDup (count_combinations h).*1) as Hnd
    by (rewrite keys_count_combinations; apply NoDup_first_occurrences).
  assert ((a, b) ∈ pair_stream h) as Hs.
  { apply elem_of_first_occurrences. rewrite <- keys_count_combinations.
    apply list_elem_of_fmap. exists (a, b, c). auto. }
  pose proof Hs as Hs'. apply elem_of_pair_stream in Hs' as (e & He & Ha & Hb & Hlt).
  split; [exact Hlt|]. split.
  { intros ->. rewrite str_lt_irrefl in Hlt. discriminate. }
  split; [|split; [eauto|exact Hnd]].
  rewrite <- (count_of_listed _ _ _ Hnd Hin), count_of_count_combinations.
  apply occurrences_pos, Hs.
Qed.

Lemma pair_stream_fmap h :
  pair_stream h = (ingredients <$> h) ≫= entry_pairs.
Proof.
  unfold pair_stream. induction h as [|e h IH]; [reflexivity|].
  rewrite fmap_cons, !bind_cons, IH. reflexivity.
Qed.

Lemma count_combinations_same_selections h h' :
  ingredients <$> h = ingredients <$> h' →
  count_combinations h = count_combinations h'.
Proof.
  intros Heq. rewrite !count_combinations_stream, !pair_stream_fmap, Heq.
  reflexivity.
Qed.

Lemma top_combos_same_selections h h' (k : nat) :
  ingredients <$> h = ingredients <$> h' → top_combos h k = top_combos h' k.
Proof.
  intros Heq. rewrite !top_combos_unfold.
  rewrite (count_combinations_same_selections h h' Heq). reflexivity.
Qed.

Lemma add_like_same_selections h (e : entry) :
  ingredients <$> (h ++ [add_like e]) = ingredients <$> (h ++ [e]).
Proof. rewrite !fmap_app. reflexivity. Qed.


Lemma occurrences_Permutation {A} `{EqDecision A} (x : A) (l l' : list A) :
  l ≡ₚ l' → occurrences x l = occurrences x l'.
Proof. induction 1; simpl; lia. Qed.

Lemma pair_stream_app h1 h2 :
  pair_stream (h1 ++ h2) = pair_stream h1 ++ pair_stream h2.
Proof. unfold pair_stream. apply bind_app. Qed.

Lemma entry_pairs_occurrences_Permutation p sel sel' :
  sel ≡ₚ sel' →
  occurrences p (entry_pairs sel) = occurrences p (entry_pairs sel').
Proof.
  intros Hp. destruct p as [a b]. rewrite !entry_pairs_occurrences.
  rewrite (occurrences_Permutation a _ _ Hp), (occurrences_Permutation b _ _ Hp).
  reflexivity.
Qed.

(** X12.  The count of a pair is the sum of what each entry contributes: it
    is additive over concatenated histories, never decreases when an entry is
    appended, and depends neither on the order of the entries nor on the
    order of the names within a selection. *)
Theorem pair_counts_additive h1 h2 p :
  count_of (count_combinations (h1 ++ h2)) p
    = count_of (count_combinations h1) p + count_of (count_combinations h2) p
  ∧ (∀ e, count_of (count_combinations h1) p
          ≤ count_of (count_combinations (h1 ++ [e])) p)
  ∧ (h1 ≡ₚ h2 →
     count_of (count_combinations h1) p = count_of (count_combinations h2) p)
  ∧ (Forall2 (fun e e' => ingredients e ≡ₚ ingredients e') h1 h2 →
     count_of (count_combinations h1) p = count_of (count_combinations h2) p).
Proof.
  rewrite !count_of_count_combinations.
  split; [rewrite pair_stream_app; apply occurrences_app|].
  split; [|split].
  - intros e. rewrite count_of_count_combinations, pair_stream_app, occurrences_app.
    pose proof (occurrences_nonneg p (pair_stream [e])). lia.
  - intros Hp. unfold pair_stream. rewrite !occurrences_bind.
    apply sum_over_Permutation, Hp.
  - intros HF. unfold pair_stream. rewrite !occurrences_bind.
    induction HF as [|e e' l l' He _ IH]; [reflexivity|]. simpl.
    rewrite IH, (entry_pairs_occurrences_Permutation p _ _ He). reflexivity.
Qed.

Lemma bind_nil_iff {A B} (f : A → list B) (l : list A) :
  l ≫= f = [] ↔ ∀ x, x ∈ l → f x = [].
Proof.
  induction l as [|x l IH]; [split; [intros _ y Hy; inversion Hy|reflexivity]|].
  rewrite bind_cons. split.
  - intros H. apply app_eq_nil in H as [Hx Hl]. intros y Hy.
    apply elem_of_cons in Hy as [->|Hy]; [exact Hx|]. apply IH; assumption.
  - intros H. rewrite (H x) by left. simpl. apply IH.
    intros y Hy. apply H. right. exact Hy.
Qed.

Lemma first_occurrences_nil {A} `{EqDecision A} (l : list A) :
  first_occurrences l = [] ↔ l = [].
Proof. destruct l; simpl; split; congruence. Qed.

(** X13.  The ranking is empty exactly when no pair is asked for or no entry
    holds two different names: entries with a single ingredient, or
    one ingredient repeated, never show up in the popular combinations. *)
Theorem top_combos_empty_iff h (k : nat) :
  top_combos h k = [] ↔
  k = 0%nat ∨ ∀ e a b, e ∈ h → a ∈ ingredients e → b ∈ ingredients e → a = b.
Proof.
  rewrite top_combos_unfold.
  assert (sorted_desc (count_combinations h) = [] ↔ pair_stream h = []) as Hs.
  { split.
    - intros H. apply first_occurrences_nil. rewrite <- keys_count_combinations.
      pose proof (sorted_desc_Permutation (count_combinations h)) as Hperm.
      rewrite H in Hperm. apply Permutation.Permutation_nil in Hperm.
      rewrite Hperm. reflexivity.
    - intros H. pose proof (keys_count_combinations h) as Hk.
      rewrite H in Hk. apply fmap_nil_inv in Hk. rewrite Hk. reflexivity. }
  assert (pair_stream h = [] ↔
          ∀ e a b, e ∈ h → a ∈ ingredients e → b ∈ ingredients e → a = b) as Hp.
  { split.
    - intros Hnil e a b He Ha Hb. destruct (decide (a = b)) as [|Hne]; [assumption|].
      exfalso. pose proof (str_lt_total a b Hne) as Ht.
      destruct (str_lt a b) eqn:Hab.
      + assert ((a, b) ∈ pair_stream h) as Hin
          by (apply elem_of_pair_stream; eauto).
        rewrite Hnil in Hin. inversion Hin.
      + assert ((b, a) ∈ pair_stream h) as Hin.
        { apply elem_of_pair_stream. exists e. repeat split; try assumption.
          destruct (str_lt b a); [reflexivity|discriminate]. }
        rewrite Hnil in Hin. inversion Hin.
    - intros Hall. apply elem_of_nil_inv. intros [a b] Hin.
      apply elem_of_pair_stream in Hin as (e & He & Ha & Hb & Hlt).
      rewrite (Hall e a b He Ha Hb), str_lt_irrefl in Hlt. discriminate. }
  rewrite <- Hp, <- Hs. split.
  - intros H. apply take_nil_inv in H. exact H.
  - intros [-> | ->]; [reflexivity|apply take_nil].
Qed.

End PairFrequencyMore.

Section PairFrequencyAndLikes.

Context {document : Type}.
Variable json_dumps : list entry → document.

(** X11.  The analysis reads nothing but the selections: two histories with
    the same selections give the same combinations and the same ranking; in
    particular a successful Like changes neither. *)
Theorem combinations_read_selections_only h h' (k : nat) :
  ingredients <$> h = ingredients <$> h' →
  count_combinations h = count_combinations h'
  ∧ top_combos h k = top_combos h' k
  ∧ ∀ (w w1 : world document),
      like_clicked json_dumps w = (Return tt, w1) →
      count_combinations (history w1) = count_combinations (history w)
      ∧ top_combos (history w1) k = top_combos (history w) k.
Proof.
  intros Heq.
  split; [apply count_combinations_same_selections, Heq|].
  split; [apply top_combos_same_selections, Heq|].
  intros w w1 Hlike. rewrite like_clicked_run in Hlike.
  destruct (last (history w)) as [e|] eqn:Hlast; [|discriminate].
  apply last_Some in Hlast as [h0 Hh]. inversion Hlike; subst w1.
  cbn [history set_files set_history]. rewrite Hh, removelast_last.
  split.
  - apply count_combinations_same_selections, add_like_same_selections.
  - apply top_combos_same_selections, add_like_same_selections.
Qed.

End PairFrequencyAndLikes.

(** ** Properties of the sidebar *)

Section SidebarProperties.

Context {document : Type}.

Implicit Types (w : world document) (sel l : list string).

(** *** The selection *)

Lemma extend_selection_cons sel (item : string) l :
  extend_selection sel (item :: l)
  = extend_selection (extend_selection sel [item]) l.
Proof. reflexivity. Qed.

Lemma extend_selection_app sel l l' :
  extend_selection sel (l ++ l') = extend_selection (extend_selection sel l) l'.
Proof. unfold extend_selection. apply foldl_app. Qed.

Lemma elem_of_extend_selection sel l (x : string) :
  x ∈ extend_selection sel l ↔ x ∈ sel ∨ x ∈ l.
Proof.
  revert sel. induction l as [|item l IH]; intros sel.
  - simpl. split; [auto|]. intros [H|H]; [exact H|inversion H].
  - rewrite extend_selection_cons, IH. simpl. case_bool_decide as Hin.
    + rewrite elem_of_cons. split; [tauto|].
      intros [H|[->|H]]; auto.
    + rewrite elem_of_app, list_elem_of_singleton, elem_of_cons. tauto.
Qed.

Lemma extend_selection_prefix sel l : sel `prefix_of` extend_selection sel l.
Proof.
  revert sel. induction l as [|item l IH]; intros sel; [reflexivity|].
  rewrite extend_selection_cons. etransitivity; [|apply IH].
  simpl. case_bool_decide; [reflexivity|]. apply prefix_app_r. reflexivity.
Qed.

Lemma extend_selection_NoDup sel l : NoDup sel → NoDup (extend_selection sel l).
Proof.
  revert sel. induction l as [|item l IH]; intros sel Hnd; [exact Hnd|].
  rewrite extend_selection_cons. apply IH. simpl.
  case_bool_decide as Hin; [exact Hnd|].
  apply NoDup_app. split; [exact Hnd|]. split; [|apply NoDup_singleton].
  intros x Hx Hx'. apply list_elem_of_singleton in Hx'. subst x. contradiction.
Qed.

Lemma extend_selection_absorbs sel l :
  (∀ x, x ∈ l → x ∈ sel) → extend_selection sel l = sel.
Proof.
  revert sel. induction l as [|item l IH]; intros sel Hin; [reflexivity|].
  rewrite extend_selection_cons. simpl.
  rewrite bool_decide_eq_true_2 by (apply Hin; left).
  apply IH. intros x Hx. apply Hin. right. exact Hx.
Qed.

Lemma set_selected_same w :
  set_selected_ingredients (selected_ingredients w) w = w.
Proof. destruct w; reflexivity. Qed.

(** *** The sidebar *)

Lemma sidebar_item_run (item : string) w :
  sidebar_item item w =
    (Return (if bool_decide (item ∈ selected_ingredients w) then []
             else match INGREDIENT_PROFILES w !! item with
                  | Some p => [(item, pairs_with p)]
                  | None => []
                  end),
     set_selected_ingredients (extend_selection (selected_ingredients w) [item]) w).
Proof.
  unfold sidebar_item, mbind, Py_bind, mret, Py_ret, gets, modify.
  cbn beta iota. simpl. case_bool_decide.
  - rewrite set_selected_same. reflexivity.
  - cbn [INGREDIENT_PROFILES set_selected_ingredients].
    destruct (INGREDIENT_PROFILES w !! item); reflexivity.
Qed.

Lemma sidebar_items_run l w :
  ∃ shown : list (string * list string),
    sidebar_items l w =
      (Return shown,
       set_selected_ingredients (extend_selection (selected_ingredients w) l) w)
    ∧ ∀ i ps, (i, ps) ∈ shown ↔
        i ∈ l ∧ (i ∉ selected_ingredients w)
        ∧ ∃ p, INGREDIENT_PROFILES w !! i = Some p ∧ ps = pairs_with p.
Proof.
  revert w. induction l as [|item l IH]; intros w.
  - exists []. split.
    + simpl. rewrite set_selected_same. reflexivity.
    + intros i ps. split; [intros H; inversion H|intros (H & _); inversion H].
  - destruct (IH (set_selected_ingredients
                    (extend_selection (selected_ingredients w) [item]) w))
      as (shown' & Hrun & Hchar).
    eexists. split.
    + cbn [sidebar_items]. unfold mbind, Py_bind.
      rewrite sidebar_item_run, Hrun. unfold mret, Py_ret.
      cbn [selected_ingredients set_selected_ingredients].
      rewrite (extend_selection_cons (selected_ingredients w) item l). reflexivity.
    + intros i ps. rewrite elem_of_app, Hchar. clear Hchar Hrun IH.
      cbn [selected_ingredients set_selected_ingredients INGREDIENT_PROFILES].
      rewrite elem_of_extend_selection, list_elem_of_singleton, elem_of_cons.
      case_bool_decide as Hin.
      * split.
        -- intros [H|(Hl & Hn & Hp)]; [inversion H|].
           split; [auto|]. split; [tauto|exact Hp].
        -- intros ([->|Hl] & Hn & Hp); [contradiction|].
           right. split; [exact Hl|]. split; [|exact Hp].
           intros [H|H]; [contradiction|]. subst i. contradiction.
      * split.
        -- intros [H|(Hl & Hn & Hp)].
           ++ destruct (INGREDIENT_PROFILES w !! item) as [p|] eqn:Hp;
                [|inversion H].
              apply list_elem_of_singleton in H. inversion H; subst.
              split; [auto|]. split; [exact Hin|]. eauto.
           ++ split; [auto|]. split; [tauto|exact Hp].
        -- intros (Hil & Hn & p & Hp & ->).
           destruct (decide (i = item)) as [->|Hne].
           ++ left. rewrite Hp. left.
           ++ right. destruct Hil as [?|Hl]; [contradiction|].
              split; [exact Hl|]. split; [tauto|eauto].
Qed.

Lemma sidebar_run (available : pydict (list string)) (pk : string → list string) w :
  ∃ shown : list (string * list string),
    sidebar available pk w =
      (Return shown,
       set_selected_ingredients
         (extend_selection (selected_ingredients w) (picked_items available pk)) w)
    ∧ ∀ i ps, (i, ps) ∈ shown ↔
        i ∈ picked_items available pk ∧ (i ∉ selected_ingredients w)
        ∧ ∃ p, INGREDIENT_PROFILES w !! i = Some p ∧ ps = pairs_with p.
Proof.
  revert w. induction available as [|[category its] available IH]; intros w.
  - exists []. split.
    + simpl. rewrite set_selected_same. reflexivity.
    + intros i ps. split; [intros H; inversion H|intros (H & _); inversion H].
  - destruct (sidebar_items_run (pk category) w) as (shown1 & Hrun1 & Hchar1).
    destruct (IH (set_selected_ingredients
                    (extend_selection (selected_ingredients w) (pk category)) w))
      as (shown2 & Hrun2 & Hchar2).
    exists (shown1 ++ shown2). split.
    + cbn [sidebar]. unfold mbind, Py_bind. rewrite Hrun1, Hrun2.
      unfold mret, Py_ret, picked_items. rewrite bind_cons.
      cbn [selected_ingredients set_selected_ingredients fst].
      rewrite extend_selection_app. reflexivity.
    + intros i ps. rewrite elem_of_app, Hchar1, Hchar2. clear Hchar1 Hchar2 IH.
      cbn [selected_ingredients set_selected_ingredients INGREDIENT_PROFILES].
      unfold picked_items. rewrite bind_cons, elem_of_app. cbn [fst].
      rewrite elem_of_extend_selection. split.
      * intros [(H1 & H2 & H3)|(H1 & H2 & H3)]; (split; [auto|]);
          (split; [tauto|exact H3]).
      * intros ([H1|H1] & H2 & H3); [left; auto|].
        destruct (decide (i ∈ pk category)) as [Hi|Hi]; [left; auto|].
        right. split; [exact H1|]. split; [tauto|exact H3].
Qed.

(** X14.  One pass of the sidebar only appends to the selection: what was
    selected stays, in place, even when it is no longer picked; each picked
    name not yet selected is added once, so a selection without repetition
    stays so; a pairing suggestion is shown exactly for the picked names that
    were not selected before and have a profile; and a second pass with the
    same picks changes nothing and shows nothing. *)
Theorem sidebar_spec (available : pydict (list string)) (pk : string → list string) w :
  ∃ (shown : list (string * list string)) (sel' : list string),
    sidebar available pk w = (Return shown, set_selected_ingredients sel' w)
    ∧ selected_ingredients w `prefix_of` sel'
    ∧ (∀ x, x ∈ sel' ↔ x ∈ selected_ingredients w ∨ x ∈ picked_items available pk)
    ∧ (NoDup (selected_ingredients w) → NoDup sel')
    ∧ (∀ i ps, (i, ps) ∈ shown ↔
         i ∈ picked_items available pk ∧ (i ∉ selected_ingredients w)
         ∧ ∃ p, INGREDIENT_PROFILES w !! i = Some p ∧ ps = pairs_with p)
    ∧ sidebar available pk (set_selected_ingredients sel' w)
      = (Return [], set_selected_ingredients sel' w).
Proof.
  destruct (sidebar_run available pk w) as (shown & Hrun & Hchar).
  exists shown, (extend_selection (selected_ingredients w) (picked_items available pk)).
  split; [exact Hrun|]. split; [apply extend_selection_prefix|].
  split; [apply elem_of_extend_selection|].
  split; [apply extend_selection_NoDup|]. split; [exact Hchar|].
  destruct (sidebar_run available pk
              (set_selected_ingredients
                 (extend_selection (selected_ingredients w)
                    (picked_items available pk)) w))
    as (shown2 & Hrun2 & Hchar2).
  rewrite Hrun2. cbn [selected_ingredients set_selected_ingredients].
  rewrite extend_selection_absorbs
    by (intros x Hx; apply elem_of_extend_selection; auto).
  assert (shown2 = []) as ->; [|reflexivity].
  apply elem_of_nil_inv. intros [i ps] Hin. apply Hchar2 in Hin as (Hi & Hn & _).
  apply Hn. cbn [selected_ingredients set_selected_ingredients].
  apply elem_of_extend_selection. auto.
Qed.

End SidebarProperties.

(** ** Properties of the script *)

Section ScriptProperties.

Context {document : Type}.
Variable json_dumps : list entry → document.
Variable json_loads : document → option json.
Variable set_iter : pyset → list string.

Implicit Types (w : world document) (s : session) (c : click)
  (st : session * world document) (sel l : list string).

Ltac run_script :=
  repeat (unfold init_available_ingredients, generate_clicked,
            read_session_nutrition, column1, columns_2_3, main, lift_py,
            session_gets, session_modify, stop, mbind, Run_bind, Py_bind, mret,
            Run_ret, Py_ret, gets, modify, lift, raise, untyped; cbn beta iota).

(** *** One run *)

Lemma init_available_run s w :
  init_available_ingredients (s, w)
  = (inl (available_of s w), (set_available (available_of s w) s, w)).
Proof.
  destruct s as [[a|] r n]; reflexivity.
Qed.

Lemma generate_clicked_run (r : option string) s w :
  generate_clicked json_dumps set_iter r (s, w) =
    match r with
    | None => (inr GenerationFailure, (s, w))
    | Some recipe =>
        match analyze_nutrition (selected_ingredients w) w with
        | (Return n, w1) =>
            (inr Rerun,
             (set_session_nutrition n (set_session_recipe recipe s),
              snd (add_recipe json_dumps set_iter recipe w1)))
        | (Raise e, w1) => (inr (Uncaught e), (s, w1))
        | (Untyped v, w1) => (inr (UntypedHistory v), (s, w1))
        end
    end.
Proof.
  destruct r as [recipe|]; [|reflexivity]. run_script. cbn [fst snd].
  destruct (analyze_nutrition (selected_ingredients w) w) as [[n|e|v] w1];
    reflexivity.
Qed.

Lemma column1_run c s w :
  ∃ ms : list string,
    get_cooking_methods set_iter w = (Return ms, w)
    ∧ column1 json_dumps set_iter c (s, w) =
        match selected_ingredients w with
        | [] => (inl [], (s, w))
        | _ :: _ =>
            if generate_pressed c
            then match generate_clicked json_dumps set_iter (reply c) (s, w) with
                 | (inl _, st') => (inl ms, st')
                 | (inr e, st') => (inr e, st')
                 end
            else (inl ms, (s, w))
        end.
Proof.
  assert (∃ ms, get_cooking_methods set_iter w = (Return ms, w)) as [ms Hms]
    by (eexists; reflexivity).
  exists ms. split; [exact Hms|].
  unfold column1, mbind, Run_bind. unfold lift_py at 1, gets. cbn [fst snd].
  destruct (selected_ingredients w); [reflexivity|].
  unfold lift_py. cbn [fst snd]. rewrite Hms.
  destruct (generate_pressed c); [|reflexivity].
  destruct (generate_clicked json_dumps set_iter (reply c) (s, w)) as [[[]|e] st'];
    reflexivity.
Qed.

Lemma columns_2_3_run c (shown : list (string * list string)) (offered : list string) s w :
  columns_2_3 json_dumps c shown offered (s, w) =
    match session_recipe s with
    | None => (inl (View shown offered None None []), (s, w))
    | Some recipe =>
        match (if like_pressed c then like_clicked json_dumps w else (Return tt, w)) with
        | (Raise e, w1) => (inr (Uncaught e), (s, w1))
        | (Untyped v, w1) => (inr (UntypedHistory v), (s, w1))
        | (Return _, w1) =>
            match session_nutrition s with
            | None => (inr AttributeError, (s, w1))
            | Some n =>
                (inl (View shown offered (Some recipe) (Some n)
                           (main_top_combos (history w1))), (s, w1))
            end
        end
    end.
Proof.
  unfold columns_2_3. run_script. cbn [fst snd].
  destruct (session_recipe s) as [recipe|]; [|reflexivity].
  destruct (like_pressed c); cbn [fst snd].
  - destruct (like_clicked json_dumps w) as [[[]|e|v] w1]; cbn [fst snd];
      [|reflexivity..]. destruct (session_nutrition s); reflexivity.
  - destruct (session_nutrition s); reflexivity.
Qed.

Lemma main_unfold c s w :
  ∃ shown : list (string * list string),
    (∀ i ps, (i, ps) ∈ shown →
       i ∈ picked_items (available_of s w) (picks c)
       ∧ (i ∉ selected_ingredients w))
    ∧ main json_dumps json_loads set_iter c (s, w) =
        match load_history json_loads w with
        | (Raise e, w1) => (inr (Uncaught e), (set_available (available_of s w) s, w1))
        | (Untyped v, w1) =>
            (inr (UntypedHistory v), (set_available (available_of s w) s, w1))
        | (Return _, w1) =>
            match column1 json_dumps set_iter c
                    (set_available (available_of s w) s,
                     set_selected_ingredients
                       (extend_selection (selected_ingredients w1)
                          (picked_items (available_of s w) (picks c))) w1) with
            | (inl offered, st') => columns_2_3 json_dumps c shown offered st'
            | (inr e, st') => (inr e, st')
            end
        end.
Proof.
  destruct (load_history json_loads w) as [[[]|e|v] w1] eqn:Hload.
  - destruct (sidebar_run (available_of s w) (picks c) w1) as (shown & Hrun & Hchar).
    exists shown. split.
    + intros i ps Hin. apply Hchar in Hin as (Hi & Hn & _). split; [exact Hi|].
      rewrite load_history_run in Hload.
      destruct (files w !! history_file) as [d|];
        [destruct (json_loads d) as [v|]; [destruct (as_history v)|]|];
        inversion Hload; subst w1; exact Hn.
    + unfold main, mbind, Run_bind. rewrite init_available_run.
      unfold lift_py at 1, RecipeManager. cbn [fst snd]. rewrite Hload.
      unfold lift_py at 1. cbn [fst snd]. rewrite Hrun. reflexivity.
  - exists []. split; [intros i ps H; inversion H|].
    unfold main, mbind, Run_bind. rewrite init_available_run.
    unfold lift_py at 1, RecipeManager. cbn [fst snd]. rewrite Hload. reflexivity.
  - exists []. split; [intros i ps H; inversion H|].
    unfold main, mbind, Run_bind. rewrite init_available_run.
    unfold lift_py at 1, RecipeManager. cbn [fst snd]. rewrite Hload. reflexivity.
Qed.



(** X16.  When the history file does not parse, every run stops at the
    creation of the manager with [JSONDecodeError]: nothing is displayed,
    the picks of the sidebar are not even recorded, and the world, the file
    included, is exactly as before. *)
Theorem main_halts_on_corrupt_store c s w (d : document) :
  files w !! history_file = Some d → json_loads d = None →
  main json_dumps json_loads set_iter c (s, w)
  = (inr (Uncaught JSONDecodeError), (set_available (available_of s w) s, w)).
Proof.
  intros Hf Hd. destruct (main_unfold c s w) as (shown & _ & ->).
  rewrite load_history_run, Hf, Hd. reflexivity.
Qed.

(** X17.  When Generate is pressed and the recipe service fails, the run
    stops there: no entry is added to the history, the history file is not
    written and the recipe shown in the session is not replaced; only the
    picks of the sidebar have been recorded. *)
Theorem main_generation_failure c s w (h0 : list entry) :
  load_history json_loads w = (Return tt, set_history h0 w) →
  extend_selection (selected_ingredients w)
    (picked_items (available_of s w) (picks c)) ≠ [] →
  generate_pressed c = true → reply c = None →
  main json_dumps json_loads set_iter c (s, w)
  = (inr GenerationFailure,
     (set_available (available_of s w) s,
      set_selected_ingredients
        (extend_selection (selected_ingredients w)
           (picked_items (available_of s w) (picks c)))
        (set_history h0 w))).
Proof.
  intros Hl Hsel Hgen Hreply. destruct (main_unfold c s w) as (shown & _ & ->).
  rewrite Hl.
  destruct (column1_run c (set_available (available_of s w) s)
              (set_selected_ingredients
                 (extend_selection (selected_ingredients (set_history h0 w))
                    (picked_items (available_of s w) (picks c)))
                 (set_history h0 w))) as (ms & _ & ->).
  cbn [selected_ingredients set_selected_ingredients set_history] in *.
  destruct (extend_selection (selected_ingredients w)
              (picked_items (available_of s w) (picks c))) as [|i0 sel0] eqn:He;
    [congruence|].
  rewrite Hgen, generate_clicked_run, Hreply. reflexivity.
Qed.

Hypothesis json_round_trip :
  ∀ h : list entry, json_loads (json_dumps h) = Some (to_json h).

(** X18.  When Generate is pressed with a non-empty selection, the service
    answers and the catalog has the Proteins and Pantry categories, the run
    ends by a rerun after putting the recipe and its nutrition in the session
    and storing the loaded history followed by one entry: the recipe, the
    clock's time, the selection, no like and the dietary tags.  The run that
    follows, if no button is pressed in it, completes and shows that recipe,
    that nutrition and the popular combinations of the extended history. *)
Theorem main_generate c c' s w (h0 : list entry) (recipe : string)
    (prot pant : category) :
  load_history json_loads w = (Return tt, set_history h0 w) →
  extend_selection (selected_ingredients w)
    (picked_items (available_of s w) (picks c)) ≠ [] →
  generate_pressed c = true → reply c = Some recipe →
  getitem (INGREDIENT_CATEGORIES w) "Proteins" = Return prot →
  getitem (INGREDIENT_CATEGORIES w) "Pantry" = Return pant →
  generate_pressed c' = false → like_pressed c' = false →
  ∃ (tgs : list string) (n : nutrition) (st' : session * world document)
    (v : view),
    let sel' := extend_selection (selected_ingredients w)
                  (picked_items (available_of s w) (picks c)) in
    let e := Entry recipe (now w) sel' 0 tgs in
    main json_dumps json_loads set_iter c (s, w) = (inr Rerun, st')
    ∧ session_recipe (fst st') = Some recipe
    ∧ session_nutrition (fst st') = Some n
    ∧ fst (analyze_nutrition sel' w) = Return n
    ∧ fst (get_dietary_tags set_iter (set_selected_ingredients sel' w)) = Return tgs
    ∧ history (snd st') = h0 ++ [e]
    ∧ files (snd st') = <[history_file := json_dumps (h0 ++ [e])]> (files w)
    ∧ fst (main json_dumps json_loads set_iter c' st') = inl v
    ∧ shown_recipe v = Some recipe
    ∧ shown_nutrition v = Some n
    ∧ popular_combinations v = main_top_combos (h0 ++ [e]).
Proof.
  intros Hl Hsel Hgen Hreply Hprot Hpant Hgen' Hlike'.
  set (sel' := extend_selection (selected_ingredients w)
                 (picked_items (available_of s w) (picks c))) in *.
  set (s1 := set_available (available_of s w) s).
  set (w2 := set_selected_ingredients sel' (set_history h0 w)).
  pose proof (analyze_nutrition_returns w2 sel' prot pant Hprot Hpant) as Hn2.
  pose proof (analyze_nutrition_returns w sel' prot pant Hprot Hpant) as Hn.
  destruct (add_recipe_run json_dumps set_iter w2 recipe) as [tgs Hadd].
  assert (fst (get_dietary_tags set_iter (set_selected_ingredients sel' w))
          = Return tgs) as Htgs.
  { pose proof Hadd as Hadd'. unfold add_recipe in Hadd'.
    unfold mbind, Py_bind, gets, modify, save_history, mret, Py_ret in Hadd'.
    cbn [fst snd now selected_ingredients history files set_selected_ingredients
         set_history set_files w2] in Hadd'.
    destruct (get_dietary_tags set_iter w2) as [[tg|ee|vv] w3] eqn:Hg;
      [|discriminate..]. unfold get_dietary_tags in *.
    unfold mbind, Py_bind, gets, mret, Py_ret in *.
    cbn [fst snd selected_ingredients INGREDIENT_CATEGORIES set_selected_ingredients
         set_history w2] in *.
    inversion Hg; subst. inversion Hadd'.
    repeat match goal with H : _ ++ [_] = _ ++ [_] |- _ =>
      apply app_inj_tail in H as [_ H]; inversion H end.
    reflexivity. }
  set (n := Nutrition (sum_over (fun i => 10 * str_len i) sel')
                      (15 * count_members (items prot) sel')
                      (20 * count_members (items pant) sel')) in *.
  set (e := Entry recipe (now w) sel' 0 tgs).
  set (s3 := set_session_nutrition n (set_session_recipe recipe s1)).
  set (w3 := set_files (<[history_file := json_dumps (h0 ++ [e])]> (files w))
               (set_history (h0 ++ [e]) w2)).
  (* the run of Generate *)
  assert (main json_dumps json_loads set_iter c (s, w) = (inr Rerun, (s3, w3)))
    as Hmain.
  { destruct (main_unfold c s w) as (shown & _ & Hm). rewrite Hm, Hl. clear Hm.
    destruct (column1_run c s1 w2) as (ms & _ & Hc1).
    change (set_selected_ingredients
              (extend_selection (selected_ingredients (set_history h0 w))
                 (picked_items (available_of s w) (picks c))) (set_history h0 w))
      with w2.
    fold s1. rewrite Hc1. clear Hc1.
    assert (∀ (A : Type) (a b : A),
              match selected_ingredients w2 with [] => a | _ :: _ => b end = b)
      as Hmatch.
    { intros A a b. change (selected_ingredients w2) with sel'.
      destruct sel'; [contradiction|reflexivity]. }
    rewrite Hmatch, Hgen, generate_clicked_run, Hreply.
    change (selected_ingredients w2) with sel'. rewrite Hn2, Hadd. reflexivity. }
  (* the run that follows *)
  assert (∃ v, fst (main json_dumps json_loads set_iter c' (s3, w3)) = inl v
               ∧ shown_recipe v = Some recipe ∧ shown_nutrition v = Some n
               ∧ popular_combinations v = main_top_combos (h0 ++ [e])) as Hnext.
  { destruct (main_unfold c' s3 w3) as (shown' & _ & Hm'). rewrite Hm'. clear Hm'.
    rewrite load_history_run.
    assert (files w3 !! history_file = Some (json_dumps (h0 ++ [e]))) as ->
      by apply lookup_insert_eq.
    rewrite json_round_trip, as_history_to_json.
    match goal with |- context [column1 _ _ c' (?s', ?w')] =>
      set (s4 := s'); set (w4 := w') end.
    destruct (column1_run c' s4 w4) as (ms' & _ & Hc1'). rewrite Hc1', Hgen'.
    assert (∀ offered,
      ∃ v, fst (columns_2_3 json_dumps c' shown' offered (s4, w4)) = inl v
           ∧ shown_recipe v = Some recipe ∧ shown_nutrition v = Some n
           ∧ popular_combinations v = main_top_combos (h0 ++ [e])) as H23.
    { intros offered. rewrite columns_2_3_run, Hlike'.
      eexists. split; [reflexivity|]. repeat split; reflexivity. }
    destruct (selected_ingredients w4);
      [destruct (H23 []) as (v & Hv & H)|destruct (H23 ms') as (v & Hv & H)];
      exists v; (split; [exact Hv|exact H]). }
  destruct Hnext as (v & Hv & Hvr & Hvn & Hvp).
  exists tgs, n, (s3, w3), v. cbv zeta. rewrite Hmain.
  split; [reflexivity|]. split; [reflexivity|]. split; [reflexivity|].
  split; [rewrite Hn; reflexivity|]. split; [exact Htgs|].
  split; [reflexivity|]. split; [reflexivity|].
  split; [exact Hv|]. split; [exact Hvr|]. split; [exact Hvn|exact Hvp].
Qed.

(** X19.  Like, pressed while a recipe is shown: when the stored history is
    empty the run stops with [IndexError] and writes nothing; otherwise the
    run completes, the last stored entry has one more like, the file holds
    the new history, and the page shows the recipe together with the popular
    combinations, which the like leaves as they were. *)
Theorem main_like c s w (h0 : list entry) (recipe : string) :
  load_history json_loads w = (Return tt, set_history h0 w) →
  generate_pressed c = false → like_pressed c = true →
  session_recipe s = Some recipe →
  let r := main json_dumps json_loads set_iter c (s, w) in
  (h0 = [] → fst r = inr (Uncaught IndexError) ∧ files (snd (snd r)) = files w)
  ∧ (∀ (h : list entry) (e : entry) (n : nutrition),
       h0 = h ++ [e] → session_nutrition s = Some n →
       ∃ v, fst r = inl v
            ∧ history (snd (snd r)) = h ++ [add_like e]
            ∧ files (snd (snd r))
              = <[history_file := json_dumps (h ++ [add_like e])]> (files w)
            ∧ shown_recipe v = Some recipe ∧ shown_nutrition v = Some n
            ∧ popular_combinations v = main_top_combos (h ++ [e])).
Proof.
  intros Hl Hgen Hlike Hrec. cbv zeta.
  destruct (main_unfold c s w) as (shown & _ & Hm). rewrite Hm, Hl. clear Hm.
  match goal with |- context [column1 _ _ c (?s', ?w')] =>
    set (s1 := s'); set (w2 := w') end.
  destruct (column1_run c s1 w2) as (ms & _ & Hc1). rewrite Hc1, Hgen. clear Hc1.
  assert (∀ offered,
    let r := columns_2_3 json_dumps c shown offered (s1, w2) in
    (h0 = [] → fst r = inr (Uncaught IndexError) ∧ files (snd (snd r)) = files w)
    ∧ (∀ (h : list entry) (e : entry) (n : nutrition),
         h0 = h ++ [e] → session_nutrition s = Some n →
         ∃ v, fst r = inl v
              ∧ history (snd (snd r)) = h ++ [add_like e]
              ∧ files (snd (snd r))
                = <[history_file := json_dumps (h ++ [add_like e])]> (files w)
              ∧ shown_recipe v = Some recipe ∧ shown_nutrition v = Some n
              ∧ popular_combinations v = main_top_combos (h ++ [e]))) as H23.
  { intros offered. cbv zeta. rewrite columns_2_3_run, Hlike, like_clicked_run.
    change (session_recipe s1) with (session_recipe s). rewrite Hrec.
    change (session_nutrition s1) with (session_nutrition s).
    change (history w2) with h0. split.
    - intros ->. split; reflexivity.
    - intros h e n -> Hn. rewrite last_snoc, removelast_last, Hn.
      eexists. split; [reflexivity|]. cbn [fst snd].
      split; [reflexivity|]. split; [reflexivity|].
      split; [reflexivity|]. split; [reflexivity|].
      apply top_combos_same_selections, add_like_same_selections. }
  destruct (selected_ingredients w2); apply H23.
Qed.






(** X20.  Until a recipe has been generated in the session, the page shows
    neither a recipe nor nutrition nor popular combinations, whatever the
    stored history holds, and the Like button does not exist: a run without
    Generate completes, writes nothing and leaves the loaded history as it
    is.  The cooking methods offered are those of [get_cooking_methods] for
    the selection the sidebar left, and none when that selection is empty. *)
Theorem main_without_recipe c s w (h0 : list entry) :
  load_history json_loads w = (Return tt, set_history h0 w) →
  session_recipe s = None →
  generate_pressed c = false →
  let sel' := extend_selection (selected_ingredients w)
                (picked_items (available_of s w) (picks c)) in
  let w2 := set_selected_ingredients sel' (set_history h0 w) in
  ∃ v : view,
    main json_dumps json_loads set_iter c (s, w)
    = (inl v, (set_available (available_of s w) s, w2))
    ∧ shown_recipe v = None ∧ shown_nutrition v = None
    ∧ popular_combinations v = []
    ∧ (sel' = [] → offered_methods v = [])
    ∧ (sel' ≠ [] →
       get_cooking_methods set_iter w2 = (Return (offered_methods v), w2)).
Proof.
  intros Hl Hrec Hgen. cbv zeta.
  destruct (main_unfold c s w) as (shown & _ & Hm). rewrite Hm, Hl. clear Hm.
  change (selected_ingredients (set_history h0 w)) with (selected_ingredients w).
  match goal with |- context [column1 _ _ c (?s', ?w')] =>
    set (s1 := s'); set (w2 := w') end.
  destruct (column1_run c s1 w2) as (ms & Hms & Hc1). rewrite Hc1, Hgen. clear Hc1.
  assert (∀ offered,
    columns_2_3 json_dumps c shown offered (s1, w2)
    = (inl (View shown offered None None []), (s1, w2))) as H23.
  { intros offered. rewrite columns_2_3_run.
    change (session_recipe s1) with (session_recipe s). rewrite Hrec. reflexivity. }
  change (selected_ingredients w2)
    with (extend_selection (selected_ingredients w)
            (picked_items (available_of s w) (picks c))).
  destruct (extend_selection (selected_ingredients w)
              (picked_items (available_of s w) (picks c))) as [|i0 sel0];
    rewrite H23; eexists; (split; [reflexivity|]); cbn [shown_recipe shown_nutrition
      popular_combinations offered_methods];
    repeat split; try reflexivity; try congruence.
Qed.

End ScriptProperties.

(** ** The further properties at concrete worlds *)

Lemma store_is_durable_witness :
  RecipeManager stored_loads
    (set_history [] (snd (like_clicked stored_dumps one_recipe_world)))
  = (Return tt, snd (like_clicked stored_dumps one_recipe_world)).
Proof.
  apply (store_is_durable stored_dumps stored_loads distinct_members
           stored_round_trip one_recipe_world _ "a recipe" []).
  right. right. reflexivity.
Defined.

Lemma like_clicked_n_times_witness :
  history (Nat.iter 3 (fun w => snd (like_clicked stored_dumps w)) one_recipe_world)
  = [] ++ [with_more_likes (Z.of_nat 3) tomato_basil_entry].
Proof.
  apply (like_clicked_n_times stored_dumps one_recipe_world [] tomato_basil_entry 3).
  reflexivity.
Defined.

Lemma store_mutations_keep_entries_witness :
  (length (history one_recipe_world)
   ≤ length (history (snd (like_clicked stored_dumps one_recipe_world))))%nat
  ∧ ∀ (i : nat) (e : entry), history one_recipe_world !! i = Some e →
      ∃ e', history (snd (like_clicked stored_dumps one_recipe_world)) !! i = Some e'
            ∧ same_but_likes e e'.
Proof.
  apply (store_mutations_keep_entries stored_dumps distinct_members
           one_recipe_world _ "a recipe").
  right. right. reflexivity.
Defined.

Lemma analyze_nutrition_edge_cases_witness :
  analyze_nutrition ["Eggs"]
      (World [] INGREDIENT_PROFILES_literal [] [] (∅ : gmap string stored) "")
    = (Raise (KeyError "Proteins"),
       World [] INGREDIENT_PROFILES_literal [] [] (∅ : gmap string stored) "")
  ∧ analyze_nutrition ["Eggs"]
      (World [("Proteins", proteins_literal)] INGREDIENT_PROFILES_literal [] []
             (∅ : gmap string stored) "")
    = (Raise (KeyError "Pantry"),
       World [("Proteins", proteins_literal)] INGREDIENT_PROFILES_literal [] []
             (∅ : gmap string stored) "").
Proof.
  split.
  - apply (analyze_nutrition_edge_cases
             (World [] INGREDIENT_PROFILES_literal [] [] (∅ : gmap string stored) "")
             ["Eggs"]); [discriminate|]. intros c. discriminate.
  - apply (proj2 (proj2 (analyze_nutrition_edge_cases
             (World [("Proteins", proteins_literal)] INGREDIENT_PROFILES_literal
                    [] [] (∅ : gmap string stored) "")
             ["Eggs"])) ltac:(discriminate) proteins_literal eq_refl).
    intros c. discriminate.
Defined.

Lemma analyze_nutrition_additive_witness :
  ∃ n1 n2 : nutrition,
    analyze_nutrition ["Eggs"] initial_world = (Return n1, initial_world)
    ∧ analyze_nutrition ["Rice"; "Tomato"] initial_world = (Return n2, initial_world)
    ∧ analyze_nutrition (["Eggs"] ++ ["Rice"; "Tomato"]) initial_world
      = (Return (Nutrition (calories n1 + calories n2)
                           (protein n1 + protein n2)
                           (carbs n1 + carbs n2)), initial_world).
Proof.
  destruct (analyze_nutrition_additive initial_world ["Eggs"] ["Rice"; "Tomato"]
              proteins_literal pantry_literal eq_refl eq_refl)
    as (n1 & n2 & H1 & H2 & H3 & _).
  exists n1, n2. auto.
Defined.

Lemma selection_included (l l' : list string) :
  bool_decide (Forall (fun i => i ∈ l') l) = true → ∀ i, i ∈ l → i ∈ l'.
Proof.
  intros H. apply Forall_forall. apply bool_decide_eq_true in H. exact H.
Qed.

Lemma get_dietary_tags_monotone_witness :
  (∃ r r' : list string,
     get_dietary_tags distinct_members shuffled_world = (Return r, shuffled_world)
     ∧ get_dietary_tags distinct_members cooking_world = (Return r', cooking_world)
     ∧ "high-protein" ∈ r
     ∧ (∀ t, t ∈ r → t ∈ r')
     ∧ (∀ t, t ∈ r ↔ t ∈ r'))
  ∧ (∃ r r' : list string,
       get_dietary_tags distinct_members tomato_world = (Return r, tomato_world)
       ∧ get_dietary_tags distinct_members cooking_world = (Return r', cooking_world)
       ∧ "vegan" ∈ r
       ∧ ∀ t, t ∈ r → t ∈ r').
Proof.
  split.
  - destruct (get_dietary_tags_monotone distinct_members distinct_members_lists
                shuffled_world cooking_world eq_refl)
      as (r & r' & H1 & H2 & H3 & H4).
    + apply selection_included. vm_compute. reflexivity.
    + exists r, r'. split; [exact H1|]. split; [exact H2|]. split.
      * vm_compute in H1. inversion H1.
        apply (bool_decide_unpack _). vm_compute. exact I.
      * split; [exact H3|]. apply H4.
        apply selection_included. vm_compute. reflexivity.
  - destruct (get_dietary_tags_monotone distinct_members distinct_members_lists
                tomato_world cooking_world eq_refl)
      as (r & r' & H1 & H2 & H3 & _).
    + apply selection_included. vm_compute. reflexivity.
    + exists r, r'. split; [exact H1|]. split; [exact H2|]. split; [|exact H3].
      vm_compute in H1. inversion H1.
      apply (bool_decide_unpack _). vm_compute. exact I.
Defined.

Lemma get_cooking_methods_monotone_witness :
  (∃ r r' : list string,
     get_cooking_methods distinct_members shuffled_world = (Return r, shuffled_world)
     ∧ get_cooking_methods distinct_members cooking_world = (Return r', cooking_world)
     ∧ "roasted" ∈ r
     ∧ (∀ m, m ∈ r → m ∈ r')
     ∧ (∀ m, m ∈ r ↔ m ∈ r'))
  ∧ (∃ r r' : list string,
       get_cooking_methods distinct_members tomato_world = (Return r, tomato_world)
       ∧ get_cooking_methods distinct_members cooking_world
         = (Return r', cooking_world)
       ∧ "raw" ∈ r
       ∧ ∀ m, m ∈ r → m ∈ r').
Proof.
  split.
  - destruct (get_cooking_methods_monotone distinct_members distinct_members_lists
                shuffled_world cooking_world eq_refl)
      as (r & r' & H1 & H2 & H3 & H4).
    + apply selection_included. vm_compute. reflexivity.
    + exists r, r'. split; [exact H1|]. split; [exact H2|]. split.
      * vm_compute in H1. inversion H1.
        apply (bool_decide_unpack _). vm_compute. exact I.
      * split; [exact H3|]. apply H4.
        apply selection_included. vm_compute. reflexivity.
  - destruct (get_cooking_methods_monotone distinct_members distinct_members_lists
                tomato_world cooking_world eq_refl)
      as (r & r' & H1 & H2 & H3 & _).
    + apply selection_included. vm_compute. reflexivity.
    + exists r, r'. split; [exact H1|]. split; [exact H2|]. split; [|exact H3].
      vm_compute in H1. inversion H1.
      apply (bool_decide_unpack _). vm_compute. exact I.
Defined.

Lemma get_dietary_tags_of_source_catalog_witness :
  ∃ r : list string,
    get_dietary_tags distinct_members cooking_world = (Return r, cooking_world)
    ∧ ("vegan" ∈ r ↔
       selects (selected_ingredients cooking_world)
               (items_of INGREDIENT_CATEGORIES_literal "Vegetables")).
Proof.
  destruct (get_dietary_tags_of_source_catalog distinct_members
              distinct_members_lists cooking_world eq_refl) as (r & Hr & Hchar).
  exists r. split; [exact Hr|]. rewrite Hchar. split.
  - intros [[_ H]|[[H _]|[[H _]|[[H _]|[H _]]]]]; [exact H|discriminate H..].
  - intros H. left. split; [left|exact H].
Defined.

Lemma combinations_keys_canonical_witness :
  str_lt "A" "B" = true ∧ "A" ≠ "B" ∧ 1 ≤ 2
  ∧ (∃ e, e ∈ abc_history ∧ "A" ∈ ingredients e ∧ "B" ∈ ingredients e)
  ∧ NoDup (count_combinations abc_history).*1.
Proof.
  apply (combinations_keys_canonical abc_history "A" "B" 2). left.
Defined.

Lemma combinations_read_selections_only_witness :
  count_combinations abc_history
  = count_combinations (with_more_likes 5 <$> abc_history)
  ∧ top_combos abc_history 3 = top_combos (with_more_likes 5 <$> abc_history) 3.
Proof.
  destruct (combinations_read_selections_only stored_dumps abc_history
              (fmap (M := list) (with_more_likes 5) abc_history) 3)
    as (H1 & H2 & _); [reflexivity|].
  auto.
Defined.

Lemma pair_counts_additive_witness :
  count_of (count_combinations (abc_history ++ repeating_history)) ("A", "B")
  = count_of (count_combinations abc_history) ("A", "B")
    + count_of (count_combinations repeating_history) ("A", "B")
  ∧ count_of (count_combinations abc_history) ("A", "B")
    = count_of (count_combinations (reverse abc_history)) ("A", "B").
Proof.
  split.
  - apply (pair_counts_additive abc_history repeating_history ("A", "B")).
  - destruct (pair_counts_additive abc_history (reverse abc_history) ("A", "B"))
      as (_ & _ & Hperm & _).
    apply Hperm. symmetry. apply reverse_Permutation.
Defined.

Lemma main_halts_on_corrupt_store_witness :
  main stored_dumps stored_loads distinct_members like
       (initial_session, corrupt_world)
  = (inr (Uncaught JSONDecodeError),
     (set_available (available_of initial_session corrupt_world) initial_session,
      corrupt_world)).
Proof.
  apply (main_halts_on_corrupt_store stored_dumps stored_loads distinct_members
           like initial_session corrupt_world (Unparsable "[{")); reflexivity.
Defined.

Lemma main_generation_failure_witness :
  main stored_dumps stored_loads distinct_members generate_fails start
  = (inr GenerationFailure,
     (set_available (available_of initial_session initial_world) initial_session,
      set_selected_ingredients
        (extend_selection (selected_ingredients initial_world)
           (picked_items (available_of initial_session initial_world)
              (picks generate_fails)))
        (set_history [] initial_world))).
Proof.
  apply (main_generation_failure stored_dumps stored_loads distinct_members
           generate_fails initial_session initial_world []);
    [reflexivity|intros H; vm_compute in H; discriminate H|reflexivity..].
Defined.

Lemma main_generate_witness :
  ∃ (st' : session * world stored) (v : view),
    main stored_dumps stored_loads distinct_members generate_ok start
      = (inr Rerun, st')
    ∧ session_recipe (fst st') = Some "Caprese"
    ∧ fst (main stored_dumps stored_loads distinct_members idle st') = inl v
    ∧ shown_recipe v = Some "Caprese".
Proof.
  destruct (main_generate stored_dumps stored_loads distinct_members
              stored_round_trip generate_ok idle initial_session initial_world
              [] "Caprese" proteins_literal pantry_literal)
    as (tgs & n & st' & v & H1 & H2 & _ & _ & _ & _ & _ & H3 & H4 & _);
    [reflexivity|intros H; vm_compute in H; discriminate H|reflexivity..|].
  exists st', v. auto.
Defined.



Lemma main_like_witness :
  ∃ v : view,
    fst (main stored_dumps stored_loads distinct_members like
           (fst after_generate, snd after_generate)) = inl v
    ∧ (likes <$> last (history (snd (snd
         (main stored_dumps stored_loads distinct_members like
            (fst after_generate, snd after_generate)))))) = Some 1
    ∧ shown_recipe v = Some "Caprese"
    ∧ popular_combinations v = [(("Basil", "Tomato"), 1)].
Proof.
  destruct (main_like stored_dumps stored_loads distinct_members like
              (fst after_generate) (snd after_generate)
              [Entry "Caprese" "2024-05-01T12:00:00" ["Tomato"; "Basil"] 0
                     ["vegan"; "vegetarian"; "healthy"; "flavor-enhancer"]]
              "Caprese" eq_refl eq_refl eq_refl eq_refl) as [_ H].
  destruct (H [] (Entry "Caprese" "2024-05-01T12:00:00" ["Tomato"; "Basil"] 0
                        ["vegan"; "vegetarian"; "healthy"; "flavor-enhancer"])
              (Nutrition 110 0 0) eq_refl eq_refl)
    as (v & Hv & Hh & _ & Hr & _ & Hp).
  exists v. split; [exact Hv|]. split; [rewrite Hh; reflexivity|].
  split; [exact Hr|]. rewrite Hp. reflexivity.
Defined.




Lemma main_without_recipe_witness :
  ∃ v : view,
    fst (main stored_dumps stored_loads distinct_members like
           (initial_session, one_recipe_world)) = inl v
    ∧ popular_combinations v = []
    ∧ files (snd (snd (main stored_dumps stored_loads distinct_members like
                         (initial_session, one_recipe_world))))
      = files one_recipe_world.
Proof.
  destruct (main_without_recipe stored_dumps stored_loads distinct_members like
              initial_session one_recipe_world [] eq_refl eq_refl eq_refl)
    as (v & Hv & _ & _ & Hp & _).
  exists v. rewrite Hv. auto.
Defined.
